(** * Fizikl: the survey client and the report contract it consumes

    A shallow embedding of the TypeScript client (the report schema of
    [lib/types.ts], the two calls of [lib/api.ts], the results dashboard
    [ResultsPage] and the questionnaire [SurveyPage]) together with a model of
    the scoring engine whose output the dashboard renders.

    Conventions.
    - A JavaScript [number] is an exact rational ([Q]); rounding of IEEE
      doubles is outside the model.  Every subtraction the client performs is
      of the shape [100 - v], which is exact on the integer gauge values the
      dashboard prints.
    - A promise that has settled is a value of [Promise]: either [Resolved]
      with its result or [Rejected] with the exception it carries.
    - Values parsed from a response body are [json] trees. *)

From Stdlib Require Import List String Ascii Bool ZArith QArith Qround Lia Lqa.
From Stdlib Require Import Permutation Sorting.Sorted.
From ExtLib Require Import Structures.Monad.
Import ListNotations.
Import MonadNotation.

Local Open Scope string_scope.
Local Open Scope Q_scope.
Local Open Scope monad_scope.

(** [a < b] on numbers, as a boolean. *)
Definition Qltb (a b : Q) : bool := negb (Qle_bool b a).

(** A stable comparison sort: an element is placed after every element that
    compares strictly smaller and before the first one that does not, so
    elements that compare equal keep their relative order.  [cmp a b] is the
    number a comparator returns (negative, zero or positive). *)
Section StableSort.
Context {A : Type} (cmp : A -> A -> Z).

Fixpoint insert (x : A) (l : list A) : list A :=
  match l with
  | [] => [x]
  | y :: l' => if (cmp x y <=? 0)%Z then x :: y :: l' else y :: insert x l'
  end.

Fixpoint stable_sort (l : list A) : list A :=
  match l with
  | [] => []
  | x :: l' => insert x (stable_sort l')
  end.
End StableSort.

(* ===================================================================== *)
(** * The JavaScript runtime pieces the client relies on                 *)
(* ===================================================================== *)

Module Js.

#[local] Set Warnings "-register-all".

(** A value obtained from [JSON.parse] / [Response.json()].  An object is kept
    as its property list; [lookup] returns the binding of a property. *)
Inductive json : Type :=
| JNull
| JBool (b : bool)
| JNum (q : Q)
| JStr (s : string)
| JArr (items : list json)
| JObj (fields : list (string * json)).

Fixpoint lookup (k : string) (fields : list (string * json)) : option json :=
  match fields with
  | [] => None
  | (k', v) :: rest => if String.eqb k k' then Some v else lookup k rest
  end.

(** The exceptions that can reach a caller of the client's API functions:
    [new Error(arg)] (its message is the string form of [arg], which is [arg]
    itself when [arg] is a string), the [SyntaxError] of a body that is not
    JSON, and the [TypeError] of a property read on [null] or of a failed
    network request. *)
Inductive exn : Type :=
| Error (arg : json)
| SyntaxError
| TypeError.

Inductive Promise (A : Type) : Type :=
| Resolved (a : A)
| Rejected (e : exn).

Arguments Resolved {A} a.
Arguments Rejected {A} e.

(** [await p] followed by the rest of the function body. *)
Definition await {A B : Type} (p : Promise A) (k : A -> Promise B) : Promise B :=
  match p with
  | Resolved a => k a
  | Rejected e => Rejected e
  end.

#[export] Instance Monad_Promise : Monad Promise :=
  {| ret := @Resolved; bind := @await |}.

(** ToBoolean on parsed values: [null], [false], [0] and the empty string are
    falsy, everything else (arrays and objects included) is truthy. *)
Definition truthy (v : json) : bool :=
  match v with
  | JNull => false
  | JBool b => b
  | JNum q => negb (Qeq_bool q 0)
  | JStr s => negb (String.eqb s "")
  | JArr _ => true
  | JObj _ => true
  end.

(** [v.k] on a parsed value: [None] is [undefined].  Reading a property of
    [null] throws; primitives and arrays have no such own property. *)
Definition get_prop (v : json) (k : string) : Promise (option json) :=
  match v with
  | JNull => Rejected TypeError
  | JObj fields => Resolved (lookup k fields)
  | _ => Resolved None
  end.

(** [x || d] where [x] may be [undefined]. *)
Definition or_else (x : option json) (d : json) : json :=
  match x with
  | Some v => if truthy v then v else d
  | None => d
  end.

(** [Array.prototype.sort(cmp)]: the language requires it to be stable. *)
Definition sort {A : Type} (cmp : A -> A -> Z) (l : list A) : list A :=
  stable_sort cmp l.

(** [xs.map((x, i) => f(x, i))]. *)
Fixpoint mapi_from {A B : Type} (f : A -> nat -> B) (i : nat) (l : list A) : list B :=
  match l with
  | [] => []
  | x :: l' => f x i :: mapi_from f (S i) l'
  end.

Definition mapi {A B : Type} (f : A -> nat -> B) (l : list A) : list B :=
  mapi_from f 0%nat l.

End Js.

(* ===================================================================== *)
(** * lib/types.ts                                                        *)
(* ===================================================================== *)

Inductive ActivityLevel : Type :=
| Activity_Low | Activity_Medium | Activity_High | Activity_VeryHigh.

Inductive Goal : Type :=
| Goal_WeightLoss | Goal_MassGain | Goal_KeepFit | Goal_BetterHealth.

Inductive FastFoodFrequency : Type :=
| FastFood_Never | FastFood_Rarely | FastFood_Sometimes | FastFood_Often
| FastFood_VeryOften.

(** The string literals of the three unions. *)
Definition ActivityLevel_str (a : ActivityLevel) : string :=
  match a with
  | Activity_Low => "Низкий"
  | Activity_Medium => "Средний"
  | Activity_High => "Высокий"
  | Activity_VeryHigh => "Очень высокий"
  end.

Definition Goal_str (g : Goal) : string :=
  match g with
  | Goal_WeightLoss => "Похудение"
  | Goal_MassGain => "Набор массы"
  | Goal_KeepFit => "Поддержание формы"
  | Goal_BetterHealth => "Улучшение здоровья"
  end.

Definition FastFoodFrequency_str (f : FastFoodFrequency) : string :=
  match f with
  | FastFood_Never => "Никогда"
  | FastFood_Rarely => "Редко"
  | FastFood_Sometimes => "Иногда"
  | FastFood_Often => "Часто"
  | FastFood_VeryOften => "Очень часто"
  end.

Record SurveyAnswers : Type := mkSurveyAnswers {
  name : string;
  age : Q;
  activity_level : ActivityLevel;
  goal : Goal;
  workouts_per_week : Q;
  sleep_hours : Q;
  stress_level : Q;
  water_liters : Q;
  fastfood_frequency : FastFoodFrequency;
  smokes : bool
}.

Record Gauges : Type := mkGauges {
  health_index : Q;
  activity_score : Q;
  recovery_quality : Q;
  lifestyle_balance : Q;
  energy_index : Q;
  metabolic_load : Q;
  cardio_risk : Q;
  consistency : Q;
  readiness : Q;
  confidence : Q
}.

Record Scores : Type := mkScores {
  activity : Q;
  sleep : Q;
  stress : Q;
  hydration : Q;
  nutrition : Q;
  smoking : Q;
  age_modifier : Q;
  movement_neat : Q;
  recovery_debt : Q;
  nutrition_stability : Q;
  habit_score : Q
}.

Module RadarPoint.
Record t : Type := mk { key : string; label : string; value : Q }.
End RadarPoint.

Module ChartPoint.
Record t : Type := mk { key : string; label : string; value : Q }.
End ChartPoint.

Record Donut : Type := mkDonut { good : Q; needs_work : Q }.

Module Target.
Record t : Type := mk {
    key : string;
    label : string;
    current : Q;
    next_tier : Q;
    suggested : string
  }.
End Target.

Record Charts : Type := mkCharts {
  dimensions : list ChartPoint.t;
  good_vs_needs_work : Donut;
  risk_composition : list ChartPoint.t;
  percentiles : list ChartPoint.t;
  targets : list Target.t
}.

Record Insight : Type := mkInsight {
  summary_text : string;
  strengths : list string;
  improvement_areas : list string;
  persona_tag : string
}.

Inductive Severity : Type := info | warn | high.

Module Alert.
Record t : Type := mk {
    key : string;
    severity : Severity;
    title : string;
    body : string
  }.
End Alert.

Module Recommendation.
Record t : Type := mk {
    key : string;
    title : string;
    why : string;
    next_step : string;
    priority : Z;
    category : string
  }.
End Recommendation.

Record Recommendations : Type := mkRecommendations {
  top_3 : list Recommendation.t;
  all : list Recommendation.t
}.

Record Flags : Type := mkFlags {
  risk_flags : list string;
  data_quality : list string;
  alerts : list Alert.t
}.

Module UserInfo.
Record t : Type := mk { name : string; age : Q; goal : Goal }.
End UserInfo.

Record Summary : Type := mkSummary {
  user : UserInfo.t;
  gauges : Gauges;
  scores : Scores;
  radar : list RadarPoint.t;
  charts : Charts;
  insight : Insight;
  recommendations : Recommendations;
  flags : Flags;
  generated_at : string;
  version : string
}.

(* ===================================================================== *)
(** * lib/api.ts                                                          *)
(* ===================================================================== *)

Module Api.
Import Js.

(** [JSON.stringify(answers)]: the request body, kept as the JSON value the
    server parses back. *)
Definition answers_to_json (a : SurveyAnswers) : json :=
  JObj [ ("name", JStr (name a));
         ("age", JNum (age a));
         ("activity_level", JStr (ActivityLevel_str (activity_level a)));
         ("goal", JStr (Goal_str (goal a)));
         ("workouts_per_week", JNum (workouts_per_week a));
         ("sleep_hours", JNum (sleep_hours a));
         ("stress_level", JNum (stress_level a));
         ("water_liters", JNum (water_liters a));
         ("fastfood_frequency", JStr (FastFoodFrequency_str (fastfood_frequency a)));
         ("smokes", JBool (smokes a)) ].

Record Request : Type := mkRequest {
  method : string;
  url : string;
  headers : list (string * string);
  req_body : option json
}.

(** An HTTP response as [fetch] resolves it.  [body] is [None] when the
    payload is not JSON, in which case [json()] rejects. *)
Record Response : Type := mkResponse {
  status : Z;
  body : option json
}.

(** [response.ok]: the status is in the range 200-299. *)
Definition ok (r : Response) : bool :=
  ((200 <=? status r) && (status r <=? 299))%Z.

(** [response.json()]. *)
Definition response_json (r : Response) : Promise json :=
  match body r with
  | Some v => Resolved v
  | None => Rejected SyntaxError
  end.

Section Client.
  (** The environment: [process.env.NEXT_PUBLIC_API_URL] and the global
      [fetch]. *)
Variable NEXT_PUBLIC_API_URL : option string.
Variable fetch : Request -> Promise Response.

Definition API_URL : string :=
    match NEXT_PUBLIC_API_URL with
    | Some s => if String.eqb s "" then "http://localhost:8000" else s
    | None => "http://localhost:8000"
    end.

Definition submit_request (answers : SurveyAnswers) : Request :=
    {| method := "POST";
       url := API_URL ++ "/api/survey";
       headers := [("Content-Type", "application/json")];
       req_body := Some (answers_to_json answers) |}.

Definition results_request (id : string) : Request :=
    {| method := "GET";
       url := API_URL ++ "/api/results/" ++ id;
       headers := [];
       req_body := None |}.

Definition submitSurvey (answers : SurveyAnswers) : Promise json :=
    response <- fetch (submit_request answers) ;;
    if negb (ok response) then
      error <- response_json response ;;
      detail <- get_prop error "detail" ;;
      Rejected (Error (or_else detail (JStr "Failed to submit survey")))
    else
      response_json response.

Definition getSurveyResults (id : string) : Promise json :=
    response <- fetch (results_request id) ;;
    if negb (ok response) then
      if (status response =? 404)%Z then
        Rejected (Error (JStr "Survey not found"))
      else
        Rejected (Error (JStr "Failed to fetch results"))
    else
      response_json response.
End Client.

End Api.

(* ===================================================================== *)
(** * app/results/[id]/page.tsx                                           *)
(* ===================================================================== *)

Module ResultsPage.

Definition getScoreColor (value : Q) (inverse : bool) : string :=
  let score := if inverse then 100 - value else value in
  if Qle_bool 75 score then "text-emerald-500"
  else if Qle_bool 50 score then "text-yellow-500"
  else "text-red-500".

Definition getHexColor (value : Q) (inverse : bool) : string :=
  let score := if inverse then 100 - value else value in
  if Qle_bool 75 score then "#10b981"
  else if Qle_bool 50 score then "#eab308"
  else "#ef4444".

Definition getRiskLabel (value : Q) (inverse : bool) : string :=
  let score := if inverse then 100 - value else value in
  if Qle_bool 75 score then "Низкий"
  else if Qle_bool 50 score then "Средний"
  else "Высокий".

(** [getLabel] of the [MiniDonut] component. *)
Definition MiniDonut_getLabel (value : Q) (inverse : bool) : string :=
  if inverse then
    if Qle_bool value 25 then "Низкий"
    else if Qle_bool value 50 then "Средний"
    else "Высокий"
  else
    if Qle_bool 75 value then "Высокий"
    else if Qle_bool 50 value then "Средний"
    else "Низкий".

Record RadarDatum : Type := mkRadarDatum { subject : string; value : Q }.

Definition radarData (gauges : Gauges) : list RadarDatum :=
  [ {| subject := "Готовность"; value := readiness gauges |};
    {| subject := "Энергия"; value := energy_index gauges |};
    {| subject := "Активность"; value := activity_score gauges |};
    {| subject := "Восстановление"; value := recovery_quality gauges |};
    {| subject := "Стабильность"; value := consistency gauges |};
    {| subject := "Баланс"; value := lifestyle_balance gauges |};
    {| subject := "Кардио-риск"; value := 100 - cardio_risk gauges |};
    {| subject := "Метаболизм"; value := 100 - metabolic_load gauges |} ].

(** The comparator of [sortedAlerts]: [order[a.severity] - order[b.severity]]
    with [order = { high: 0, warn: 1, info: 2 }]. *)
Definition order (s : Severity) : Z :=
  match s with
  | high => 0
  | warn => 1
  | info => 2
  end.

Definition compareAlerts (a b : Alert.t) : Z :=
  (order (Alert.severity a) - order (Alert.severity b))%Z.

Definition sortedAlerts (flags : Flags) : list Alert.t :=
  Js.sort compareAlerts (alerts flags).

(** The badge of the [i]-th entry of [recommendations.all]: its style and the
    number printed in it. *)
Definition recommendationBadge (rec : Recommendation.t) (i : nat)
  : Recommendation.t * string * nat :=
  (rec,
   if (i <? 3)%nat then "bg-primary/10 text-primary"
   else "bg-muted text-muted-foreground",
   (i + 1)%nat).

Definition recommendationList (recommendations : Recommendations)
  : list (Recommendation.t * string * nat) :=
  Js.mapi recommendationBadge (all recommendations).

End ResultsPage.

(* ===================================================================== *)
(** * The questionnaire ([SurveyPage])                                    *)
(* ===================================================================== *)

Module SurveyPage.

Definition TOTAL_STEPS : Z := 10.

Definition set_age (answers : SurveyAnswers) (a : Q) : SurveyAnswers :=
  {| name := name answers;
     age := a;
     activity_level := activity_level answers;
     goal := goal answers;
     workouts_per_week := workouts_per_week answers;
     sleep_hours := sleep_hours answers;
     stress_level := stress_level answers;
     water_liters := water_liters answers;
     fastfood_frequency := fastfood_frequency answers;
     smokes := smokes answers |}.

(** [case 2] of [canProceed]:
    [answers.age && answers.age >= 18 && answers.age <= 80]. *)
Definition canProceed_age (answers : SurveyAnswers) : bool :=
  negb (Qeq_bool (age answers) 0)
  && Qle_bool 18 (age answers) && Qle_bool (age answers) 80.

(** The [onBlur] handler of the age input. *)
Definition age_onBlur (answers : SurveyAnswers) : SurveyAnswers :=
  if Qeq_bool (age answers) 0 || Qltb (age answers) 18 then set_age answers 18
  else if Qltb 80 (age answers) then set_age answers 80
  else answers.

Definition handleNext (step : Z) : Z :=
  if (step <? TOTAL_STEPS)%Z then (step + 1)%Z else step.

Definition handleBack (step : Z) : Z :=
  if (step >? 1)%Z then (step - 1)%Z else step.

End SurveyPage.

(* ===================================================================== *)
(** * The scoring engine                                                  *)
(* ===================================================================== *)

(** The gauges and scores by name, as the report schema lists them. *)
Inductive GaugeName : Type :=
| g_health_index | g_activity_score | g_recovery_quality | g_lifestyle_balance
| g_energy_index | g_metabolic_load | g_cardio_risk | g_consistency
| g_readiness | g_confidence.

Inductive ScoreName : Type :=
| s_activity | s_sleep | s_stress | s_hydration | s_nutrition | s_smoking
| s_age_modifier | s_movement_neat | s_recovery_debt | s_nutrition_stability
| s_habit_score.

Definition all_gauges : list GaugeName :=
  [ g_health_index; g_activity_score; g_recovery_quality; g_lifestyle_balance;
    g_energy_index; g_metabolic_load; g_cardio_risk; g_consistency;
    g_readiness; g_confidence ].

Definition all_scores : list ScoreName :=
  [ s_activity; s_sleep; s_stress; s_hydration; s_nutrition; s_smoking;
    s_age_modifier; s_movement_neat; s_recovery_debt; s_nutrition_stability;
    s_habit_score ].

Definition gauge_key (g : GaugeName) : string :=
  match g with
  | g_health_index => "health_index"
  | g_activity_score => "activity_score"
  | g_recovery_quality => "recovery_quality"
  | g_lifestyle_balance => "lifestyle_balance"
  | g_energy_index => "energy_index"
  | g_metabolic_load => "metabolic_load"
  | g_cardio_risk => "cardio_risk"
  | g_consistency => "consistency"
  | g_readiness => "readiness"
  | g_confidence => "confidence"
  end.

Definition gauge_value (g : GaugeName) (G : Gauges) : Q :=
  match g with
  | g_health_index => health_index G
  | g_activity_score => activity_score G
  | g_recovery_quality => recovery_quality G
  | g_lifestyle_balance => lifestyle_balance G
  | g_energy_index => energy_index G
  | g_metabolic_load => metabolic_load G
  | g_cardio_risk => cardio_risk G
  | g_consistency => consistency G
  | g_readiness => readiness G
  | g_confidence => confidence G
  end.

Definition score_value (n : ScoreName) (S : Scores) : Q :=
  match n with
  | s_activity => activity S
  | s_sleep => sleep S
  | s_stress => stress S
  | s_hydration => hydration S
  | s_nutrition => nutrition S
  | s_smoking => smoking S
  | s_age_modifier => age_modifier S
  | s_movement_neat => movement_neat S
  | s_recovery_debt => recovery_debt S
  | s_nutrition_stability => nutrition_stability S
  | s_habit_score => habit_score S
  end.

(** The polarity the dashboard gives each gauge: [cardio_risk] and
    [metabolic_load] are the two it renders with [inverse]. *)
Inductive Polarity : Type := Direct | Inverse.

Definition polarity (g : GaugeName) : Polarity :=
  match g with
  | g_cardio_risk | g_metabolic_load => Inverse
  | _ => Direct
  end.

(** The radar of the report, in the words of the specification: the gauges
    other than [health_index] and [confidence], the inverse-polarity ones
    stored as [100 - raw]. *)
Definition radar_gauges : list GaugeName :=
  [ g_readiness; g_energy_index; g_activity_score; g_recovery_quality;
    g_consistency; g_lifestyle_balance; g_cardio_risk; g_metabolic_load ].

Definition radar_value (G : Gauges) (g : GaugeName) : Q :=
  match polarity g with
  | Inverse => 100 - gauge_value g G
  | Direct => gauge_value g G
  end.

Module Engine.
Import Js.

(** Modelled from the spec: the error kinds of the engine (section 7); the
    server-side pipeline is not among the client sources.  A
    [ValidationError] names the offending field. *)
Inductive EngineError : Type :=
| ValidationError (field : string)
| NotFoundError
| InternalComputationError.

(** Modelled from the spec: the outcome of a stage of the absent pipeline,
    either its value or the error it fails with. *)
Inductive result (A : Type) : Type :=
| Ok (a : A)
| Err (e : EngineError).

Arguments Ok {A} a.
Arguments Err {A} e.

(** Modelled from the spec: a stage that fails ends the absent pipeline with
    its error (section 3: the report is never partially emitted). *)
Definition result_bind {A B : Type} (r : result A) (k : A -> result B) : result B :=
  match r with
  | Ok a => k a
  | Err e => Err e
  end.

#[export] Instance Monad_result : Monad result :=
  {| ret := @Ok; bind := @result_bind |}.

(** ** 4.1 Input Validator/Normalizer *)

(** Modelled from the spec: the checks of the absent validator on one field
    (present, of the right kind, inside its domain). *)
Definition field (raw : json) (k : string) : result json :=
  match raw with
  | JObj fields =>
      match lookup k fields with
      | Some v => Ok v
      | None => Err (ValidationError k)
      end
  | _ => Err (ValidationError k)
  end.

(** Modelled from the spec: the kind checks of the absent validator. *)
Definition as_string (k : string) (v : json) : result string :=
  match v with
  | JStr s => Ok s
  | _ => Err (ValidationError k)
  end.

(** Modelled from the spec: as [as_string], for numbers. *)
Definition as_number (k : string) (v : json) : result Q :=
  match v with
  | JNum q => Ok q
  | _ => Err (ValidationError k)
  end.

(** Modelled from the spec: as [as_string], for booleans. *)
Definition as_bool (k : string) (v : json) : result bool :=
  match v with
  | JBool b => Ok b
  | _ => Err (ValidationError k)
  end.

(** Modelled from the spec: the test of the absent validator for the fields
    declared as integers. *)
Definition is_integer (q : Q) : bool :=
  Qeq_bool (inject_Z (Qfloor q)) q.

(** Modelled from the spec: a failed check of the absent validator is a
    [ValidationError] on the field. *)
Definition check (k : string) (b : bool) : result unit :=
  if b then Ok tt else Err (ValidationError k).

(** Modelled from the spec: the inclusive domains of section 3. *)
Definition in_range (lo hi q : Q) : bool :=
  Qle_bool lo q && Qle_bool q hi.

(** Modelled from the spec: the rounding of the absent validator to the
    declared 0.5 step. *)
Definition round_to_half (q : Q) : Q :=
  inject_Z (Qfloor (q * 2 + (1 # 2))) / 2.

(** Modelled from the spec: an enum value of the absent validator must be
    one of the fixed set. *)
Definition one_of {A : Type} (str : A -> string) (domain : list A) (k s : string)
  : result A :=
  match find (fun a => String.eqb (str a) s) domain with
  | Some a => Ok a
  | None => Err (ValidationError k)
  end.

(** Modelled from the spec: an integer field of the absent validator (age,
    workouts, stress). *)
Definition integer_field (raw : json) (k : string) (lo hi : Q) : result Q :=
  v <- field raw k ;;
  q <- as_number k v ;;
  _ <- check k (is_integer q && in_range lo hi q) ;;
  ret q.

(** Modelled from the spec: a half-step field of the absent validator
    (sleep, water). *)
Definition stepped_field (raw : json) (k : string) (lo hi : Q) : result Q :=
  v <- field raw k ;;
  q <- as_number k v ;;
  _ <- check k (in_range lo hi q) ;;
  ret (round_to_half q).

(** Modelled from the spec: an enum field of the absent validator. *)
Definition enum_field {A : Type} (str : A -> string) (domain : list A)
  (raw : json) (k : string) : result A :=
  v <- field raw k ;;
  s <- as_string k v ;;
  one_of str domain k s.

(** Modelled from the spec: the Input Validator/Normalizer (section 4.1),
    which is not among the client sources.  It fails with [ValidationError]
    if a field is missing, of the wrong kind or outside its declared domain,
    and otherwise returns the answers with sleep and water rounded to the 0.5
    step. *)
Definition validate (raw : json) : result SurveyAnswers :=
  v_name <- field raw "name" ;;
  a_name <- as_string "name" v_name ;;
  _ <- check "name" (negb (String.eqb a_name "")) ;;
  a_age <- integer_field raw "age" 18 80 ;;
  a_activity <- enum_field ActivityLevel_str
      [Activity_Low; Activity_Medium; Activity_High; Activity_VeryHigh]
      raw "activity_level" ;;
  a_goal <- enum_field Goal_str
      [Goal_WeightLoss; Goal_MassGain; Goal_KeepFit; Goal_BetterHealth]
      raw "goal" ;;
  a_workouts <- integer_field raw "workouts_per_week" 0 7 ;;
  a_sleep <- stepped_field raw "sleep_hours" 4 12 ;;
  a_stress <- integer_field raw "stress_level" 1 10 ;;
  a_water <- stepped_field raw "water_liters" 0 5 ;;
  a_fastfood <- enum_field FastFoodFrequency_str
      [FastFood_Never; FastFood_Rarely; FastFood_Sometimes; FastFood_Often;
       FastFood_VeryOften]
      raw "fastfood_frequency" ;;
  v_smokes <- field raw "smokes" ;;
  a_smokes <- as_bool "smokes" v_smokes ;;
  ret {| name := a_name;
         age := a_age;
         activity_level := a_activity;
         goal := a_goal;
         workouts_per_week := a_workouts;
         sleep_hours := a_sleep;
         stress_level := a_stress;
         water_liters := a_water;
         fastfood_frequency := a_fastfood;
         smokes := a_smokes |}.

(** ** The rule tables *)

(** Modelled from the spec: one row of the catalog of the absent
    Recommendation Ranker (section 4.6): the recommendation text, the
    condition under which it is a candidate and its weight formula. *)
Record CatalogEntry : Type := mkCatalogEntry {
  entry : Recommendation.t;
  triggered : SurveyAnswers -> Scores -> Gauges -> Flags -> bool;
  weight : SurveyAnswers -> Scores -> Gauges -> Flags -> Q
}.

(** Modelled from the spec: the fixed rule, weight, threshold and catalog
    tables (sections 5 and 9), passed to every stage as read-only
    configuration.  The specification fixes how the tables are used, not
    their contents, so the formulas are fields. *)
Record RuleTables : Type := mkRuleTables {
  score_formula : ScoreName -> SurveyAnswers -> Q;
  gauge_formula : GaugeName -> Scores -> Q;
  gauge_label : GaugeName -> string;
  tier_ladder : list Q;
  suggestion : GaugeName -> string;
  dimensions_of : Scores -> Gauges -> list ChartPoint.t;
  donut_of : Scores -> Gauges -> Donut;
  risk_composition_of : Scores -> Gauges -> list ChartPoint.t;
  percentiles_of : Scores -> Gauges -> list ChartPoint.t;
  insight_of : SurveyAnswers -> Scores -> Gauges -> Insight;
  flags_of : SurveyAnswers -> Scores -> Gauges -> Flags;
  catalog : list CatalogEntry;
  rules_version : string
}.

(** ** 4.2 Category Scorer and 4.3 Composite Index Builder *)

(** Modelled from the spec: the clamping policy of sections 4.2 and 7 (a
    formula that could leave [0,100] is clamped, never an error). *)
Definition clamp (q : Q) : Q :=
  if Qle_bool q 0 then 0 else if Qle_bool 100 q then 100 else q.

(** Modelled from the spec: the Category Scorer (section 4.2), absent from
    the client sources: every sub-score is its formula, clamped. *)
Definition build_scores (cfg : RuleTables) (a : SurveyAnswers) : Scores :=
  let f n := clamp (score_formula cfg n a) in
  {| activity := f s_activity;
     sleep := f s_sleep;
     stress := f s_stress;
     hydration := f s_hydration;
     nutrition := f s_nutrition;
     smoking := f s_smoking;
     age_modifier := f s_age_modifier;
     movement_neat := f s_movement_neat;
     recovery_debt := f s_recovery_debt;
     nutrition_stability := f s_nutrition_stability;
     habit_score := f s_habit_score |}.

(** Modelled from the spec: the Composite Index Builder (section 4.3),
    absent from the client sources: every gauge is its combination of the
    scores, clamped. *)
Definition build_gauges (cfg : RuleTables) (S : Scores) : Gauges :=
  let f g := clamp (gauge_formula cfg g S) in
  {| health_index := f g_health_index;
     activity_score := f g_activity_score;
     recovery_quality := f g_recovery_quality;
     lifestyle_balance := f g_lifestyle_balance;
     energy_index := f g_energy_index;
     metabolic_load := f g_metabolic_load;
     cardio_risk := f g_cardio_risk;
     consistency := f g_consistency;
     readiness := f g_readiness;
     confidence := f g_confidence |}.

(** ** 4.4 Chart/Series Builder *)

(** Modelled from the spec: the radar list of section 4.4 (a), absent from
    the client sources. *)
Definition build_radar (cfg : RuleTables) (G : Gauges) : list RadarPoint.t :=
  map (fun g => RadarPoint.mk (gauge_key g) (gauge_label cfg g) (radar_value G g))
      radar_gauges.

(** Modelled from the spec: the tier lookup of the absent Chart/Series
    Builder: the first rung of the ladder strictly above [current], if any. *)
Definition next_tier_above (ladder : list Q) (current : Q) : option Q :=
  find (fun t => Qltb current t) ladder.

(** Modelled from the spec: the top tier of the absent builder's ladder is
    its last rung. *)
Fixpoint top_tier (ladder : list Q) : option Q :=
  match ladder with
  | [] => None
  | t :: rest =>
      match rest with
      | [] => Some t
      | _ :: _ => top_tier rest
      end
  end.

(** Modelled from the spec: the entry of one gauge in the targets of the
    absent Chart/Series Builder. *)
Definition target_of (cfg : RuleTables) (G : Gauges) (g : GaugeName)
  : list Target.t :=
  match next_tier_above (tier_ladder cfg) (gauge_value g G) with
  | Some t =>
      [ Target.mk (gauge_key g) (gauge_label cfg g) (gauge_value g G) t
                  (suggestion cfg g) ]
  | None => []
  end.

(** Modelled from the spec: the targets of section 4.4 (e), absent from the
    client sources: one entry per gauge that has a tier strictly above its
    current value, none for the others. *)
Definition build_targets (cfg : RuleTables) (G : Gauges) : list Target.t :=
  flat_map (target_of cfg G) all_gauges.

(** Modelled from the spec: the charts of the absent Chart/Series Builder;
    the series other than the targets come from the tables. *)
Definition build_charts (cfg : RuleTables) (S : Scores) (G : Gauges) : Charts :=
  {| dimensions := dimensions_of cfg S G;
     good_vs_needs_work := donut_of cfg S G;
     risk_composition := risk_composition_of cfg S G;
     percentiles := percentiles_of cfg S G;
     targets := build_targets cfg G |}.

(** ** 4.6 Recommendation Ranker *)

(** Modelled from the spec: the order of the absent ranker, weight
    descending: [a] sorts before [b] when its weight is larger. *)
Definition by_weight_desc (a b : CatalogEntry * Q) : Z :=
  match Qcompare (snd b) (snd a) with
  | Lt => (-1)%Z
  | Eq => 0%Z
  | Gt => 1%Z
  end.

(** Modelled from the spec: the absent ranker numbers the ranked entries
    from 1. *)
Definition with_priority (e : CatalogEntry * Q) (i : nat) : Recommendation.t :=
  let r := entry (fst e) in
  Recommendation.mk (Recommendation.key r) (Recommendation.title r)
    (Recommendation.why r) (Recommendation.next_step r)
    (Z.of_nat i + 1)%Z (Recommendation.category r).

(** Modelled from the spec: the ranking of the absent ranker: the triggered
    catalog entries, stably sorted by weight, ties in catalog order. *)
Definition rank (cfg : RuleTables) (a : SurveyAnswers) (S : Scores) (G : Gauges)
  (F : Flags) : list Recommendation.t :=
  let candidates := filter (fun c => triggered c a S G F) (catalog cfg) in
  let weighted := map (fun c => (c, weight c a S G F)) candidates in
  mapi with_priority (stable_sort by_weight_desc weighted).

(** Modelled from the spec: the Recommendation Ranker (section 4.6), absent
    from the client sources: [all] is the stable ranking of the triggered
    catalog entries by weight, [top_3] its first three elements. *)
Definition build_recommendations (cfg : RuleTables) (a : SurveyAnswers)
  (S : Scores) (G : Gauges) (F : Flags) : Recommendations :=
  let ranked := rank cfg a S G F in
  {| top_3 := firstn 3 ranked; all := ranked |}.

(** ** The pipeline *)

(** Modelled from the spec: the assembly of the report by the absent
    pipeline, stage after stage. *)
Definition assemble (cfg : RuleTables) (now : string) (a : SurveyAnswers)
  : Summary :=
  let S := build_scores cfg a in
  let G := build_gauges cfg S in
  let F := flags_of cfg a S G in
  {| user := UserInfo.mk (name a) (age a) (goal a);
     gauges := G;
     scores := S;
     radar := build_radar cfg G;
     charts := build_charts cfg S G;
     insight := insight_of cfg a S G;
     recommendations := build_recommendations cfg a S G F;
     flags := F;
     generated_at := now;
     version := rules_version cfg |}.

(** Modelled from the spec: the single-pass pipeline of section 2, absent
    from the client sources: validation, then scoring and assembly of the
    report.  [now] is the clock reading stamped on the report, the only input
    besides the answers and the tables. *)
Definition run (cfg : RuleTables) (now : string) (raw : json) : result Summary :=
  a <- validate raw ;;
  ret (assemble cfg now a).

(** ** Range predicates *)

(** The closed interval of the scores and gauges. *)
Definition in_0_100 (q : Q) : Prop := 0 <= q /\ q <= 100.

Definition scores_in_range (S : Scores) : Prop :=
  forall n, in_0_100 (score_value n S).

Definition gauges_in_range (G : Gauges) : Prop :=
  forall g, in_0_100 (gauge_value g G).

End Engine.

(* ===================================================================== *)
(** * Sample data                                                         *)
(* ===================================================================== *)

(** Concrete inputs on which the definitions are run. *)
Module Sample.
Import Js Api.

(** The second boundary scenario of the specification. *)
Definition answers : SurveyAnswers :=
  {| name := "Anna";
     age := 30;
     activity_level := Activity_High;
     goal := Goal_KeepFit;
     workouts_per_week := 5;
     sleep_hours := 8;
     stress_level := 2;
     water_liters := 5 # 2;
     fastfood_frequency := FastFood_Never;
     smokes := false |}.

Definition raw : json := answers_to_json answers.

(** The same answers as the validator returns them, and the report the
    pipeline assembles from them. *)
Definition normalized : SurveyAnswers :=
  {| name := "Anna";
     age := 30;
     activity_level := Activity_High;
     goal := Goal_KeepFit;
     workouts_per_week := 5;
     sleep_hours := 16 # 2;
     stress_level := 2;
     water_liters := 5 # 2;
     fastfood_frequency := FastFood_Never;
     smokes := false |}.

(** The same submission with an age below the domain. *)
Definition raw_age_17 : json :=
  answers_to_json (SurveyPage.set_age answers 17).

Definition record : json :=
  JObj [ ("id", JStr "r-1"); ("answers", raw); ("results", JObj []);
         ("created_at", JStr "2025-01-01T00:00:00Z") ].

Definition response_200 : Response :=
  {| status := 200; body := Some record |}.

Definition response_404 : Response :=
  {| status := 404; body := Some (JObj [("detail", JStr "Survey not found")]) |}.

Definition response_400 : Response :=
  {| status := 400; body := Some (JObj [("detail", JStr "age out of range")]) |}.

(** A non-ok response whose body has a [detail] field holding the empty
    string. *)
Definition response_400_empty_detail : Response :=
  {| status := 400; body := Some (JObj [("detail", JStr "")]) |}.

Definition always (r : Response) : Request -> Promise Response :=
  fun _ => Resolved r.

(** A small instance of the rule tables on which the pipeline is run; its
    constants are illustrative. *)
Definition sample_score (n : ScoreName) (a : SurveyAnswers) : Q :=
  match n with
  | s_activity => workouts_per_week a * 20
  | s_sleep => 100 - (sleep_hours a - 8) * (sleep_hours a - 8) * 10
  | s_stress => 110 - stress_level a * 10
  | s_hydration => water_liters a * 50
  | s_smoking => if smokes a then 20 else 100
  | s_age_modifier => 120 - age a
  | _ => 60
  end.

Definition sample_gauge (g : GaugeName) (S : Scores) : Q :=
  match g with
  | g_health_index =>
      (activity S + sleep S + stress S + hydration S + smoking S) / 5
  | g_activity_score => activity S
  | g_recovery_quality => (sleep S + stress S) / 2
  | g_energy_index => (sleep S + stress S + hydration S) / 3
  | g_metabolic_load => 100 - (nutrition S + hydration S) / 2
  | g_cardio_risk => 100 - (smoking S + activity S) / 2
  | g_consistency => habit_score S
  | g_confidence => 100
  | _ => (activity S + sleep S) / 2 - 30
  end.

Definition sample_flags (a : SurveyAnswers) (S : Scores) (G : Gauges) : Flags :=
  {| risk_flags := if smokes a then ["smoking"] else [];
     data_quality := [];
     alerts :=
       [ Alert.mk "hydration" info "Water" "Keep a bottle at hand" ]
       ++ (if smokes a then [ Alert.mk "smoking" high "Smoking" "Cardio risk" ]
           else [])
       ++ (if Qle_bool 7 (stress_level a)
           then [ Alert.mk "stress" warn "Stress" "Plan recovery" ] else [])
       ++ [ Alert.mk "sleep" info "Sleep" "Keep a regular schedule" ] |}.

Definition sample_entry (k : string) (n : ScoreName) : Engine.CatalogEntry :=
  {| Engine.entry := Recommendation.mk k k "why" "next" 0 "habit";
     Engine.triggered := fun _ S _ _ => Qltb (score_value n S) 100;
     Engine.weight := fun _ S _ _ => 100 - score_value n S |}.

Definition tables : Engine.RuleTables :=
  {| Engine.score_formula := sample_score;
     Engine.gauge_formula := sample_gauge;
     Engine.gauge_label := gauge_key;
     Engine.tier_ladder := [50; 65; 75; 85; 95];
     Engine.suggestion := fun _ => "one step at a time";
     Engine.dimensions_of := fun _ _ => [];
     Engine.donut_of := fun _ _ => {| good := 7; needs_work := 3 |};
     Engine.risk_composition_of := fun _ _ => [];
     Engine.percentiles_of := fun _ _ => [];
     Engine.insight_of := fun _ _ _ =>
       {| summary_text := "steady"; strengths := []; improvement_areas := [];
          persona_tag := "balanced" |};
     Engine.flags_of := sample_flags;
     Engine.catalog :=
       [ sample_entry "move" s_activity; sample_entry "sleep" s_sleep;
         sample_entry "stress" s_stress; sample_entry "habits" s_habit_score;
         sample_entry "neat" s_movement_neat ];
     Engine.rules_version := "1.0" |}.

Definition summary : Summary :=
  Engine.assemble tables "2025-01-01T00:00:00Z" normalized.

End Sample.

(* ===================================================================== *)
(** * Vocabulary of the statements                                        *)
(* ===================================================================== *)

Definition Severity_eqb (s1 s2 : Severity) : bool :=
  match s1, s2 with
  | info, info | warn, warn | high, high => true
  | _, _ => false
  end.

(** The alerts of one severity, in the order of the list. *)
Definition with_severity (s : Severity) (l : list Alert.t) : list Alert.t :=
  filter (fun a => Severity_eqb (Alert.severity a) s) l.

(** The gauges record with two of its fields replaced. *)
Definition with_overall (h c : Q) (G : Gauges) : Gauges :=
  {| health_index := h;
     activity_score := activity_score G;
     recovery_quality := recovery_quality G;
     lifestyle_balance := lifestyle_balance G;
     energy_index := energy_index G;
     metabolic_load := metabolic_load G;
     cardio_risk := cardio_risk G;
     consistency := consistency G;
     readiness := readiness G;
     confidence := c |}.

(** The entries of [recommendations.all] that the dashboard renders with the
    highlighted badge. *)
Definition highlighted (R : Recommendations) : list Recommendation.t :=
  map (fun b => fst (fst b))
      (filter (fun b => String.eqb (snd (fst b)) "bg-primary/10 text-primary")
              (ResultsPage.recommendationList R)).

(** The reading of the submit contract in which a non-ok response always
    yields the [detail] field of its body, the fallback message being used
    only when the body has no such field. *)
Definition detail_always_verbatim (env : option string)
  (fetch : Api.Request -> Js.Promise Api.Response) (answers : SurveyAnswers)
  (resp : Api.Response) : Prop :=
  fetch (Api.submit_request env answers) = Js.Resolved resp ->
  Api.ok resp = false ->
  forall fields, Api.body resp = Some (Js.JObj fields) ->
  Api.submitSurvey env fetch answers =
  Js.Rejected (Js.Error
    match Js.lookup "detail" fields with
    | Some d => d
    | None => Js.JStr "Failed to submit survey"
    end).

(* ===================================================================== *)
(** * The rest of the dashboard                                           *)
(* ===================================================================== *)

(** The parts of the JavaScript runtime whose results the client displays
    but does not compute: [String.prototype.trim], [parseInt] ([None] is
    [NaN]), the string form of a value that is not a string, and the message
    of an exception that was not built from a string. *)
Record Runtime : Type := mkRuntime {
  trim : string -> string;
  parseInt : string -> option Z;
  ToString : Js.json -> string;
  builtin_message : Js.exn -> string
}.

(** [err.message]: the message of [new Error(s)] is [s]. *)
Definition message (rt : Runtime) (e : Js.exn) : string :=
  match e with
  | Js.Error (Js.JStr s) => s
  | Js.Error v => ToString rt v
  | _ => builtin_message rt e
  end.

(** [Math.round]: the nearest integer, a tie going up. *)
Definition Math_round (x : Q) : Z := Qfloor (x + (1 # 2)).

Definition Math_min (a b : Q) : Q := if Qle_bool a b then a else b.

Module AnimatedNumber.

(** What one call of [animate] leaves behind: the start time it recorded, the
    number it displays and whether it asked for another frame. *)
Record Frame : Type := mkFrame {
  startTime : option Q;
  displayValue : Z;
  requested : bool
}.

Definition easeOutQuart (progress : Q) : Q := 1 - (1 - progress) ^ 4.

(** [animate(currentTime)], for the component's [value] and [duration];
    [startTime] is [None] while the variable is still [undefined].  With
    [duration = 0] the script divides by zero, which the rational model does
    not follow; the statements below take [0 < duration]. *)
Definition animate (value duration : Q) (startTime : option Q)
  (currentTime : Q) : Frame :=
  let startTime' :=
    match startTime with
    | None => currentTime
    | Some t => if Qeq_bool t 0 then currentTime else t
    end in
  let progress :=
    Math_min ((currentTime - startTime') / (duration * 1000)) 1 in
  {| startTime := Some startTime';
     displayValue := Math_round (easeOutQuart progress * value);
     requested := Qltb progress 1 |}.

End AnimatedNumber.

Module ActivityRings.

Definition size : Q := 160.
Definition strokeWidth : Q := 14.
Definition gap : Q := 4.
Definition center : Q := size / 2.

Definition radius (index : nat) : Q :=
  center - strokeWidth / 2 - (strokeWidth + gap) * inject_Z (Z.of_nat index).

(** [PI] is [Math.PI]. *)
Definition circumference (PI : Q) (index : nat) : Q := 2 * PI * radius index.

(** The length of the drawn arc, the first number of [strokeDasharray]. *)
Definition progress (PI : Q) (value : Q) (index : nat) : Q :=
  (value / 100) * circumference PI index.

End ActivityRings.

Module MiniDonut.

(** The two slices of the donut: the value in the metric's colour and the
    remainder in grey. *)
Definition data (value : Q) (inverse : bool) : list (Q * string) :=
  [ (value, ResultsPage.getHexColor value inverse);
    (100 - value, "#e5e7eb") ].

End MiniDonut.

Module ResultsView.
Import Js.

(** [radarData.reduce((sum, p) => sum + p.value, 0) / radarData.length]. *)
Definition avgRadarValue (gauges : Gauges) : Q :=
  fold_left (fun sum p => sum + ResultsPage.value p)
            (ResultsPage.radarData gauges) 0
  / inject_Z (Z.of_nat (List.length (ResultsPage.radarData gauges))).

(** The three pieces of state of [ResultsPage]; [data] is [None] while it is
    [null]. *)
Record PageState : Type := mkPageState {
  data : option json;
  loading : bool;
  error : option string
}.

Definition initial : PageState :=
  {| data := None; loading := true; error := None |}.

(** [fetchData] of the effect, run to completion: the record is stored, or
    the message of the exception; [loading] is cleared either way. *)
Definition fetchData (rt : Runtime) (env : option string)
  (fetch : Api.Request -> Promise Api.Response) (id : string)
  (st : PageState) : PageState :=
  match Api.getSurveyResults env fetch id with
  | Resolved result =>
      {| data := Some result; loading := false; error := error st |}
  | Rejected err =>
      {| data := data st; loading := false; error := Some (message rt err) |}
  end.

(** What an early return of the component shows. *)
Inductive View : Type :=
| Spinner
| Failure (text : string).

(** [error || d]. *)
Definition error_or (error : option string) (d : string) : string :=
  match error with
  | Some e => if String.eqb e "" then d else e
  | None => d
  end.

Definition error_truthy (error : option string) : bool :=
  match error with
  | Some e => negb (String.eqb e "")
  | None => false
  end.

(** [!data]. *)
Definition data_falsy (data : option json) : bool :=
  match data with
  | Some v => negb (truthy v)
  | None => true
  end.

(** The two early returns of [ResultsPage], [if (loading)] and
    [if (error || !data)]: [Some] is the view returned.  [None] means that
    neither is taken; the component then goes on to destructure [data] and to
    build the dashboard from it, which throws when the record is not complete
    and is not part of this function. *)
Definition early_return (st : PageState) : option View :=
  if loading st then Some Spinner
  else if error_truthy (error st) || data_falsy (data st)
       then Some (Failure (error_or (error st) "Данные не найдены"))
       else None.

(** The numbers printed in the badges of the recommendation list. *)
Definition badge_numbers (R : Recommendations) : list nat :=
  map snd (ResultsPage.recommendationList R).

End ResultsView.

(* ===================================================================== *)
(** * The rest of the questionnaire                                       *)
(* ===================================================================== *)

Module Questionnaire.
Import Js SurveyPage.

(** The state of [SurveyPage]. *)
Record State : Type := mkState {
  step : Z;
  loading : bool;
  error : option string;
  answers : SurveyAnswers
}.

Definition initial : State :=
  {| step := 1;
     loading := false;
     error := None;
     answers :=
       {| name := "";
          age := 30;
          activity_level := Activity_Medium;
          goal := Goal_BetterHealth;
          workouts_per_week := 2;
          sleep_hours := 7;
          stress_level := 5;
          water_liters := 3 # 2;
          fastfood_frequency := FastFood_Sometimes;
          smokes := false |} |}.

Definition stepTitles : list string :=
  [ "Знакомство"; "Возраст"; "Активность"; "Цель"; "Тренировки"; "Сон";
    "Стресс"; "Вода"; "Питание"; "Привычки" ].

(** [stepTitles[step - 1]]; [None] is [undefined]. *)
Definition stepTitle (step : Z) : option string :=
  if (step - 1 <? 0)%Z then None else nth_error stepTitles (Z.to_nat (step - 1)).

Definition progress (step : Z) : Q :=
  (inject_Z step / inject_Z TOTAL_STEPS) * 100.

(** [canProceed()], as the [disabled] attribute reads it. *)
Definition canProceed (rt : Runtime) (st : State) : bool :=
  if (step st =? 1)%Z then
    negb (String.eqb (name (answers st)) "")
    && (0 <? String.length (trim rt (name (answers st))))%nat
  else if (step st =? 2)%Z then canProceed_age (answers st)
  else true.

Definition with_answers (st : State) (a : SurveyAnswers) : State :=
  {| step := step st; loading := loading st; error := error st; answers := a |}.

Definition with_step (st : State) (n : Z) : State :=
  {| step := n; loading := loading st; error := error st; answers := answers st |}.

(** [{ ...answers, name: value }]. *)
Definition set_name (a : SurveyAnswers) (v : string) : SurveyAnswers :=
  {| name := v;
     age := age a;
     activity_level := activity_level a;
     goal := goal a;
     workouts_per_week := workouts_per_week a;
     sleep_hours := sleep_hours a;
     stress_level := stress_level a;
     water_liters := water_liters a;
     fastfood_frequency := fastfood_frequency a;
     smokes := smokes a |}.

(** The [onChange] handler of the age input. *)
Definition age_onChange (rt : Runtime) (val : string) (a : SurveyAnswers)
  : SurveyAnswers :=
  if String.eqb val "" then set_age a 0
  else
    match parseInt rt val with
    | Some num =>
        if ((0 <=? num) && (num <=? 99))%Z then set_age a (inject_Z num) else a
    | None => a
    end.

(** The other fields: each handler replaces its own field. *)
Inductive FieldChange : Type :=
| activity_level_change (v : ActivityLevel)
| goal_change (v : Goal)
| workouts_per_week_change (v : Q)
| sleep_hours_change (v : Q)
| stress_level_change (v : Q)
| water_liters_change (v : Q)
| fastfood_frequency_change (v : FastFoodFrequency)
| smokes_change (v : bool).

(** The step on which the control of a field is rendered. *)
Definition field_step (c : FieldChange) : Z :=
  match c with
  | activity_level_change _ => 3
  | goal_change _ => 4
  | workouts_per_week_change _ => 5
  | sleep_hours_change _ => 6
  | stress_level_change _ => 7
  | water_liters_change _ => 8
  | fastfood_frequency_change _ => 9
  | smokes_change _ => 10
  end.

Definition apply_change (c : FieldChange) (a : SurveyAnswers) : SurveyAnswers :=
  {| name := name a;
     age := age a;
     activity_level :=
       match c with activity_level_change v => v | _ => activity_level a end;
     goal := match c with goal_change v => v | _ => goal a end;
     workouts_per_week :=
       match c with workouts_per_week_change v => v | _ => workouts_per_week a end;
     sleep_hours := match c with sleep_hours_change v => v | _ => sleep_hours a end;
     stress_level :=
       match c with stress_level_change v => v | _ => stress_level a end;
     water_liters :=
       match c with water_liters_change v => v | _ => water_liters a end;
     fastfood_frequency :=
       match c with
       | fastfood_frequency_change v => v
       | _ => fastfood_frequency a
       end;
     smokes := match c with smokes_change v => v | _ => smokes a end |}.

(** [`${response.id}`]. *)
Definition id_text (rt : Runtime) (id : option json) : string :=
  match id with
  | None => "undefined"
  | Some (JStr s) => s
  | Some v => ToString rt v
  end.

(** [handleSubmit], run to completion: the state it leaves and the route it
    pushed, if any. *)
Definition handleSubmit (rt : Runtime) (env : option string)
  (fetch : Api.Request -> Promise Api.Response) (st : State)
  : State * option string :=
  let outcome :=
    response <- Api.submitSurvey env fetch (answers st) ;;
    id <- get_prop response "id" ;;
    ret (("/results/" ++ id_text rt id)%string) in
  match outcome with
  | Resolved route =>
      ({| step := step st; loading := true; error := None;
          answers := answers st |}, Some route)
  | Rejected err =>
      ({| step := step st; loading := false; error := Some (message rt err);
          answers := answers st |}, None)
  end.

(** What the user can do to the page. *)
Inductive Event : Type :=
| name_input (value : string)
| age_input (value : string)
| age_blur
| field_input (c : FieldChange)
| next_click
| back_click
| submit_click.

(** An event can occur when its control is rendered and not disabled. *)
Definition enabled (rt : Runtime) (st : State) (ev : Event) : bool :=
  match ev with
  | name_input _ => (step st =? 1)%Z
  | age_input _ | age_blur => (step st =? 2)%Z
  | field_input c => (step st =? field_step c)%Z
  | next_click => (step st <? TOTAL_STEPS)%Z && canProceed rt st
  | back_click => (step st >? 1)%Z && negb (loading st)
  | submit_click => negb (step st <? TOTAL_STEPS)%Z && negb (loading st)
  end.

Definition handle (rt : Runtime) (env : option string)
  (fetch : Api.Request -> Promise Api.Response) (st : State) (ev : Event)
  : State :=
  match ev with
  | name_input v => with_answers st (set_name (answers st) v)
  | age_input v => with_answers st (age_onChange rt v (answers st))
  | age_blur => with_answers st (age_onBlur (answers st))
  | field_input c => with_answers st (apply_change c (answers st))
  | next_click => with_step st (handleNext (step st))
  | back_click => with_step st (handleBack (step st))
  | submit_click => fst (handleSubmit rt env fetch st)
  end.

(** The states the page can be brought into. *)
Inductive reachable (rt : Runtime) (env : option string)
  (fetch : Api.Request -> Promise Api.Response) : State -> Prop :=
| reachable_initial : reachable rt env fetch initial
| reachable_event (st : State) (ev : Event) :
    reachable rt env fetch st ->
    enabled rt st ev = true ->
    reachable rt env fetch (handle rt env fetch st ev).

(** Running a list of events, skipping those that cannot occur. *)
Definition run_events (rt : Runtime) (env : option string)
  (fetch : Api.Request -> Promise Api.Response) (evs : list Event) : State :=
  fold_left (fun st ev => if enabled rt st ev then handle rt env fetch st ev else st)
            evs initial.

(** What the steps of the page guarantee about the answers: the step is one
    of the ten, the age is an integer of 0-99, it is in the accepted domain
    once the age step is behind, and the name is not blank once the name step
    is behind. *)
Definition page_invariant (rt : Runtime) (st : State) : Prop :=
  (1 <= step st <= TOTAL_STEPS)%Z
  /\ (exists z, age (answers st) = inject_Z z /\ (0 <= z <= 99)%Z)
  /\ ((3 <= step st)%Z -> 18 <= age (answers st) <= 80)
  /\ ((2 <= step st)%Z ->
        name (answers st) <> ""
        /\ (0 < String.length (trim rt (name (answers st))))%nat).

End Questionnaire.

(** A runtime for the runs on sample data: it trims nothing, reads decimal
    digits and reports every other value as an object. *)
Module SampleRuntime.

Definition digit (c : ascii) : option Z :=
  let n := Z.of_nat (nat_of_ascii c) in
  if ((48 <=? n) && (n <=? 57))%Z then Some (n - 48)%Z else None.

Fixpoint digits (acc : Z) (s : string) : option Z :=
  match s with
  | EmptyString => Some acc
  | String c rest =>
      match digit c with
      | Some d => digits (acc * 10 + d) rest
      | None => None
      end
  end.

Definition rt : Runtime :=
  {| trim := fun s => s;
     parseInt := fun s => if String.eqb s "" then None else digits 0 s;
     ToString := fun _ => "[object Object]";
     builtin_message := fun _ => "Failed to fetch" |}.

End SampleRuntime.

(* ===================================================================== *)
(** * Properties                                                          *)
(* ===================================================================== *)

Local Open Scope list_scope.

(** ** Numbers *)

Lemma Qltb_lt (a b : Q) : Qltb a b = true <-> a < b.
Proof.
  unfold Qltb. rewrite negb_true_iff.
  destruct (Qle_bool b a) eqn:E.
  - apply Qle_bool_iff in E. split; [discriminate | intro H; lra].
  - split; [intros _ | reflexivity].
    destruct (Qlt_le_dec a b) as [H | H]; [exact H |].
    apply Qle_bool_iff in H. congruence.
Qed.

Lemma Qltb_ge (a b : Q) : Qltb a b = false <-> b <= a.
Proof.
  unfold Qltb. rewrite negb_false_iff. apply Qle_bool_iff.
Qed.

Lemma Qle_bool_false (a b : Q) : Qle_bool a b = false <-> b < a.
Proof.
  rewrite <- Qltb_lt. unfold Qltb.
  destruct (Qle_bool a b); simpl; split; congruence.
Qed.

(** Comparing the mirrored value [100 - v] with a threshold is comparing [v]
    with the mirrored threshold. *)
Lemma Qle_bool_mirror (c v : Q) : Qle_bool c (100 - v) = Qle_bool v (100 - c).
Proof.
  apply eq_true_iff_eq. rewrite !Qle_bool_iff. split; intro H; lra.
Qed.

(** ** The stable sort *)

Section StableSortFacts.
Context {A : Type} (cmp : A -> A -> Z).

Lemma insert_head (x : A) (l : list A) :
  Forall (fun y => (cmp x y <= 0)%Z) l -> insert cmp x l = x :: l.
Proof.
  intros H. destruct l as [| y l']; [reflexivity |].
  simpl. apply Forall_inv in H. apply Z.leb_le in H. now rewrite H.
Qed.

Lemma insert_skip (x : A) (p r : list A) :
  Forall (fun y => (0 < cmp x y)%Z) p ->
  insert cmp x (p ++ r) = p ++ insert cmp x r.
Proof.
  induction p as [| y p IH]; intros H; [reflexivity |].
  inversion H as [| ? ? Hy Hp]; subst. simpl.
  destruct (cmp x y <=? 0)%Z eqn:E.
  - apply Z.leb_le in E. lia.
  - now rewrite IH.
Qed.

Lemma insert_perm (x : A) (l : list A) : Permutation (x :: l) (insert cmp x l).
Proof.
  induction l as [| y l IH]; simpl; [reflexivity |].
  destruct (cmp x y <=? 0)%Z; [reflexivity |].
  rewrite perm_swap. now apply perm_skip.
Qed.

Lemma stable_sort_perm (l : list A) : Permutation l (stable_sort cmp l).
Proof.
  induction l as [| x l IH]; simpl; [constructor |].
  rewrite <- insert_perm. now apply perm_skip.
Qed.
End StableSortFacts.

(** Sorting on an integer key keeps, for every key, the elements carrying it
    in their original order. *)
Section SortByKey.
Context {A : Type} (sort_key : A -> Z).

Let cmp (a b : A) : Z := (sort_key a - sort_key b)%Z.
Let has_key (k : Z) (a : A) : bool := (sort_key a =? k)%Z.

Lemma insert_keeps_groups (k : Z) (x : A) (l : list A) :
  filter (has_key k) (insert cmp x l) = filter (has_key k) (x :: l).
Proof.
  induction l as [| y l IH]; [reflexivity |].
  cbn [insert]. destruct (cmp x y <=? 0)%Z eqn:E; [reflexivity |].
  apply Z.leb_gt in E. unfold cmp in E.
  cbn [filter] in *. rewrite IH.
  unfold has_key.
  destruct (sort_key y =? k)%Z eqn:Ey; [| reflexivity].
  apply Z.eqb_eq in Ey.
  destruct (sort_key x =? k)%Z eqn:Ex; [| reflexivity].
  apply Z.eqb_eq in Ex. lia.
Qed.

Lemma stable_sort_keeps_groups (k : Z) (l : list A) :
  filter (has_key k) (stable_sort cmp l) = filter (has_key k) l.
Proof.
  induction l as [| x l IH]; [reflexivity |].
  cbn [stable_sort]. rewrite insert_keeps_groups.
  cbn [filter]. now rewrite IH.
Qed.

Lemma insert_sorted (x : A) (l : list A) :
  StronglySorted (fun a b => (sort_key a <= sort_key b)%Z) l ->
  StronglySorted (fun a b => (sort_key a <= sort_key b)%Z) (insert cmp x l).
Proof.
  induction 1 as [| y l Hs IH Hy]; cbn [insert].
  - repeat constructor.
  - destruct (cmp x y <=? 0)%Z eqn:E.
    + apply Z.leb_le in E. unfold cmp in E.
      constructor; [now constructor |].
      constructor; [lia |].
      eapply Forall_impl; [| exact Hy]. cbn. intros; lia.
    + apply Z.leb_gt in E. unfold cmp in E.
      constructor; [exact IH |].
      eapply Permutation_Forall; [apply insert_perm |].
      constructor; [lia | exact Hy].
Qed.

Lemma stable_sort_sorted (l : list A) :
  StronglySorted (fun a b => (sort_key a <= sort_key b)%Z) (stable_sort cmp l).
Proof.
  induction l as [| x l IH]; cbn [stable_sort]; [constructor |].
  now apply insert_sorted.
Qed.
End SortByKey.

(** ** Alerts *)

Section Alerts.
Import ResultsPage.

Lemma Severity_eqb_eq (s1 s2 : Severity) : Severity_eqb s1 s2 = true <-> s1 = s2.
Proof. destruct s1, s2; simpl; split; congruence. Qed.

Lemma Severity_eqb_order (s1 s2 : Severity) :
  Severity_eqb s1 s2 = (order s1 =? order s2)%Z.
Proof. now destruct s1, s2. Qed.

Lemma with_severity_spec (s : Severity) (l : list Alert.t) :
  Forall (fun a => Alert.severity a = s) (with_severity s l).
Proof.
  apply Forall_forall. intros a Ha.
  apply filter_In in Ha. now apply Severity_eqb_eq.
Qed.

Lemma with_severity_cons (s : Severity) (x : Alert.t) (l : list Alert.t) :
  with_severity s (x :: l) =
  if Severity_eqb (Alert.severity x) s then x :: with_severity s l
  else with_severity s l.
Proof. reflexivity. Qed.

(** The sort gathers the alerts in three blocks. *)
Lemma sort_alerts_blocks (l : list Alert.t) :
  stable_sort compareAlerts l =
  with_severity high l ++ with_severity warn l ++ with_severity info l.
Proof.
  induction l as [| x l IH]; [reflexivity |].
  cbn [stable_sort]. rewrite IH, !with_severity_cons.
  pose proof (with_severity_spec high l) as Hh.
  pose proof (with_severity_spec warn l) as Hw.
  pose proof (with_severity_spec info l) as Hi.
  unfold compareAlerts.
  destruct (Alert.severity x) eqn:Ex; cbn [Severity_eqb].
  - (* info: after the high and the warn blocks *)
    rewrite app_assoc, insert_skip, insert_head, <- app_assoc; [reflexivity | |].
    + eapply Forall_impl; [| exact Hi]. cbn. intros a ->. rewrite Ex. cbn. lia.
    + apply Forall_app. split.
      * eapply Forall_impl; [| exact Hh]. cbn. intros a ->. rewrite Ex. cbn. lia.
      * eapply Forall_impl; [| exact Hw]. cbn. intros a ->. rewrite Ex. cbn. lia.
  - (* warn: after the high block *)
    rewrite insert_skip, insert_head; [reflexivity | |].
    + apply Forall_app. split.
      * eapply Forall_impl; [| exact Hw]. cbn. intros a ->. rewrite Ex. cbn. lia.
      * eapply Forall_impl; [| exact Hi]. cbn. intros a ->. rewrite Ex. cbn. lia.
    + eapply Forall_impl; [| exact Hh]. cbn. intros a ->. rewrite Ex. cbn. lia.
  - (* high: in front *)
    rewrite insert_head; [reflexivity |].
    apply Forall_forall. intros a _. rewrite Ex.
    destruct (Alert.severity a); cbn; lia.
Qed.

(** C2.  The alerts are displayed with every [high] alert first, then every
    [warn] alert, then every [info] alert; the alerts of one severity keep the
    order in which they were generated, and no alert is lost or repeated. *)
Theorem sortedAlerts_by_severity_stable (F : Flags) :
  sortedAlerts F =
    with_severity high (alerts F) ++ with_severity warn (alerts F)
      ++ with_severity info (alerts F)
  /\ (forall s, with_severity s (sortedAlerts F) = with_severity s (alerts F))
  /\ StronglySorted
       (fun a b => (order (Alert.severity a) <= order (Alert.severity b))%Z)
       (sortedAlerts F)
  /\ Permutation (alerts F) (sortedAlerts F).
Proof.
  unfold sortedAlerts, Js.sort. repeat split.
  - apply sort_alerts_blocks.
  - intros s. unfold with_severity.
    rewrite (filter_ext _ (fun a => (order (Alert.severity a) =? order s)%Z))
      by (intros a; apply Severity_eqb_order).
    rewrite (filter_ext (fun a => Severity_eqb (Alert.severity a) s)
                        (fun a => (order (Alert.severity a) =? order s)%Z))
      by (intros a; apply Severity_eqb_order).
    apply (stable_sort_keeps_groups (fun a => order (Alert.severity a))).
  - apply (stable_sort_sorted (fun a => order (Alert.severity a))).
  - apply stable_sort_perm.
Qed.
End Alerts.

(** ** The radar of the dashboard *)

Section Radar.
Import ResultsPage.

(** C1.  For every report the dashboard's radar has exactly eight points, one
    per gauge other than [health_index] and [confidence] (which do not
    influence it); the points of [cardio_risk] and [metabolic_load] carry
    [100 - raw], every other point carries the raw gauge value. *)
Theorem radarData_polarity (s : Summary) :
  let G := gauges s in
  List.length (radarData G) = 8%nat
  /\ map value (radarData G) = map (radar_value G) radar_gauges
  /\ NoDup radar_gauges
  /\ (forall g, In g radar_gauges <-> g <> g_health_index /\ g <> g_confidence)
  /\ (forall h c, radarData (with_overall h c G) = radarData G)
  /\ radar_value G g_cardio_risk = 100 - cardio_risk G
  /\ radar_value G g_metabolic_load = 100 - metabolic_load G
  /\ (forall g, g <> g_cardio_risk -> g <> g_metabolic_load ->
        radar_value G g = gauge_value g G).
Proof.
  cbv zeta. repeat split.
  - repeat constructor; cbn; intuition discriminate.
  - destruct g; cbn in H; intuition discriminate.
  - destruct g; cbn in H; intuition discriminate.
  - intros [Hh Hc]. destruct g; cbn; tauto.
  - intros g Hc Hm. destruct g; try reflexivity; congruence.
Qed.
Lemma radarData_polarity_witness :
  radar_value (gauges Sample.summary) g_readiness
  = gauge_value g_readiness (gauges Sample.summary).
Proof.
  apply (radarData_polarity Sample.summary); discriminate.
Defined.

(** The radar list the engine stores in the report carries the values the
    dashboard plots. *)
Lemma build_radar_matches_dashboard (cfg : Engine.RuleTables) (G : Gauges) :
  map RadarPoint.value (Engine.build_radar cfg G) = map value (radarData G).
Proof.
  reflexivity.
Qed.
End Radar.

(** ** Polarity handling of the dashboard *)

Section PolarityHandling.
Import ResultsPage.

(** On exact numbers the label [MiniDonut] computes inline for an inverse
    metric is the one [getRiskLabel] gives it.  On doubles [100 - v] is exact
    when [v] is an integer of [0,100] but may round next to a threshold
    otherwise, which is why the statement about the code below is about
    integers. *)
Lemma MiniDonut_getLabel_inverse (v : Q) :
  MiniDonut_getLabel v true = getRiskLabel v true.
Proof.
  unfold MiniDonut_getLabel, getRiskLabel. cbv zeta.
  rewrite (Qle_bool_mirror 75 v), (Qle_bool_mirror 50 v).
  replace (Qle_bool v (100 - 75)) with (Qle_bool v 25)
    by (apply Qleb_comp; reflexivity).
  replace (Qle_bool v (100 - 50)) with (Qle_bool v 50)
    by (apply Qleb_comp; reflexivity).
  reflexivity.
Qed.

(** C10.  The inverse polarity is a uniform pre-inversion: each of the three
    helpers gives [v] with [inverse] what it gives [100 - v] without, with the
    thresholds 75 and 50 applied to the resulting score in both polarities;
    and on every integer of [0,100] the inline label rule of [MiniDonut] for
    an inverse metric agrees with [getRiskLabel]. *)
Theorem polarity_is_uniform_preinversion :
  (forall v : Q,
      getScoreColor v true = getScoreColor (100 - v) false
      /\ getHexColor v true = getHexColor (100 - v) false
      /\ getRiskLabel v true = getRiskLabel (100 - v) false)
  /\ (forall (v : Q) (inverse : bool),
        let score := if inverse then 100 - v else v in
        (75 <= score ->
           getScoreColor v inverse = "text-emerald-500"
           /\ getHexColor v inverse = "#10b981"
           /\ getRiskLabel v inverse = "Низкий")
        /\ (50 <= score < 75 ->
           getScoreColor v inverse = "text-yellow-500"
           /\ getHexColor v inverse = "#eab308"
           /\ getRiskLabel v inverse = "Средний")
        /\ (score < 50 ->
           getScoreColor v inverse = "text-red-500"
           /\ getHexColor v inverse = "#ef4444"
           /\ getRiskLabel v inverse = "Высокий"))
  /\ (forall z : Z, (0 <= z <= 100)%Z ->
        MiniDonut_getLabel (inject_Z z) true = getRiskLabel (inject_Z z) true).
Proof.
  split; [| split].
  - intros v. repeat split.
  - intros v inverse score.
    unfold getScoreColor, getHexColor, getRiskLabel. fold score.
    repeat split.
    1-3: apply Qle_bool_iff in H; now rewrite H.
    1-3: destruct H as [H50 H75];
         apply Qle_bool_false in H75; apply Qle_bool_iff in H50;
         now rewrite H75, H50.
    1-3: assert (H75 : score < 75) by lra;
         apply Qle_bool_false in H75; apply Qle_bool_false in H;
         now rewrite H75, H.
  - intros z _. apply MiniDonut_getLabel_inverse.
Qed.

Lemma polarity_is_uniform_preinversion_witness :
  MiniDonut_getLabel (inject_Z 25) true = getRiskLabel (inject_Z 25) true.
Proof.
  apply (proj2 (proj2 polarity_is_uniform_preinversion) 25%Z). lia.
Defined.
End PolarityHandling.

(** ** The age step of the questionnaire *)

Section AgeStep.
Import SurveyPage.

(** Leaving the age input always leaves an age the step accepts. *)
Lemma age_onBlur_canProceed (answers : SurveyAnswers) :
  canProceed_age (age_onBlur answers) = true.
Proof.
  unfold age_onBlur, canProceed_age.
  destruct (Qeq_bool (age answers) 0) eqn:E0; cbn [orb]; [reflexivity |].
  destruct (Qltb (age answers) 18) eqn:E18; [reflexivity |].
  destruct (Qltb 80 (age answers)) eqn:E80; [reflexivity |].
  apply Qltb_ge in E18, E80. apply Qle_bool_iff in E18, E80.
  now rewrite E0, E18, E80.
Qed.

Lemma age_onBlur_in_domain (answers : SurveyAnswers) :
  18 <= age (age_onBlur answers) <= 80.
Proof.
  pose proof (age_onBlur_canProceed answers) as H.
  unfold canProceed_age in H.
  apply andb_true_iff in H. destruct H as [H H80].
  apply andb_true_iff in H. destruct H as [_ H18].
  apply Qle_bool_iff in H18, H80. now split.
Qed.
End AgeStep.

(** ** The API client *)

Section ApiClient.
Import Js Api.

Lemma ok_status (r : Response) :
  ok r = true <-> (200 <= status r <= 299)%Z.
Proof.
  unfold ok. rewrite andb_true_iff, !Z.leb_le. tauto.
Qed.

Lemma not_found_is_not_ok (r : Response) : status r = 404%Z -> ok r = false.
Proof.
  intros H. unfold ok. rewrite H. reflexivity.
Qed.

(** C8.  Once the request has been answered, [getSurveyResults] returns the
    record carried by the body exactly when the response is ok, fails with
    "Survey not found" exactly when the status is 404, and fails with "Failed
    to fetch results" exactly on the other non-ok responses; the two messages
    differ. *)
Theorem getSurveyResults_outcomes (env : option string)
  (fetch : Request -> Promise Response) (id : string) (resp : Response) :
  fetch (results_request env id) = Resolved resp ->
  (forall stored, response_json resp = Resolved stored ->
     (getSurveyResults env fetch id = Resolved stored <-> ok resp = true))
  /\ (getSurveyResults env fetch id = Rejected (Error (JStr "Survey not found"))
      <-> status resp = 404%Z)
  /\ (getSurveyResults env fetch id = Rejected (Error (JStr "Failed to fetch results"))
      <-> ok resp = false /\ status resp <> 404%Z)
  /\ Error (JStr "Survey not found") <> Error (JStr "Failed to fetch results").
Proof.
  intros Hfetch. unfold getSurveyResults. rewrite Hfetch. cbn.
  split; [| split; [| split]].
  - intros stored Hjson. destruct (ok resp); cbn.
    + rewrite Hjson. tauto.
    + split; [| discriminate].
      destruct (status resp =? 404)%Z; discriminate.
  - split.
    + destruct (ok resp) eqn:Hok; cbn.
      * unfold response_json. destruct (body resp); discriminate.
      * destruct (status resp =? 404)%Z eqn:E; [| discriminate].
        intros _. now apply Z.eqb_eq.
    + intros H404. rewrite (not_found_is_not_ok _ H404). cbn.
      apply Z.eqb_eq in H404. now rewrite H404.
  - split.
    + destruct (ok resp) eqn:Hok; cbn.
      * unfold response_json. destruct (body resp); discriminate.
      * destruct (status resp =? 404)%Z eqn:E; [discriminate |].
        intros _. split; [reflexivity | now apply Z.eqb_neq].
    + intros [Hok H404]. rewrite Hok. cbn.
      apply Z.eqb_neq in H404. now rewrite H404.
  - discriminate.
Qed.

Lemma getSurveyResults_outcomes_witness :
  getSurveyResults None (Sample.always Sample.response_200) "r-1"
    = Resolved Sample.record
  <-> ok Sample.response_200 = true.
Proof.
  apply (proj1 (getSurveyResults_outcomes None
                  (Sample.always Sample.response_200) "r-1"
                  Sample.response_200 eq_refl)
               Sample.record eq_refl).
Defined.

(** A non-ok response is turned into an [Error] built from [detail || "Failed
    to submit survey"]. *)
Lemma submitSurvey_not_ok (env : option string)
  (fetch : Request -> Promise Response) (answers : SurveyAnswers)
  (resp : Response) (fields : list (string * json)) :
  fetch (submit_request env answers) = Resolved resp ->
  ok resp = false ->
  body resp = Some (JObj fields) ->
  submitSurvey env fetch answers =
  Rejected (Error (or_else (lookup "detail" fields)
                           (JStr "Failed to submit survey"))).
Proof.
  intros Hfetch Hok Hbody. unfold submitSurvey. rewrite Hfetch. cbn.
  rewrite Hok. cbn. unfold response_json. rewrite Hbody. reflexivity.
Qed.

(** C9, as stated, fails: a 400 response whose body is [{"detail": ""}] has a
    [detail] field, yet the error carries the fallback message. *)
Lemma detail_always_verbatim_fails :
  ~ detail_always_verbatim None (Sample.always Sample.response_400_empty_detail)
      Sample.answers Sample.response_400_empty_detail.
Proof.
  intros H.
  specialize (H eq_refl eq_refl _ eq_refl).
  vm_compute in H. discriminate H.
Qed.

(** C9, amended.  Once the request has been answered, [submitSurvey] returns
    the parsed body exactly when the response is ok.  On a non-ok response
    whose body is a JSON object it fails with an [Error] built from the
    body's [detail] when that value is truthy, so that a non-empty string is
    carried verbatim, and with "Failed to submit survey" when the [detail]
    field is absent or falsy ([null], [false], [0] or the empty string). *)
Theorem submitSurvey_outcomes (env : option string)
  (fetch : Request -> Promise Response) (answers : SurveyAnswers)
  (resp : Response) :
  fetch (submit_request env answers) = Resolved resp ->
  (forall parsed, response_json resp = Resolved parsed ->
     (submitSurvey env fetch answers = Resolved parsed <-> ok resp = true))
  /\ (ok resp = false ->
      forall fields, body resp = Some (JObj fields) ->
      (forall d, lookup "detail" fields = Some d -> truthy d = true ->
         submitSurvey env fetch answers = Rejected (Error d))
      /\ (forall msg, lookup "detail" fields = Some (JStr msg) -> msg <> "" ->
         submitSurvey env fetch answers = Rejected (Error (JStr msg)))
      /\ (forall d, lookup "detail" fields = Some d -> truthy d = false ->
         submitSurvey env fetch answers =
         Rejected (Error (JStr "Failed to submit survey")))
      /\ (lookup "detail" fields = None ->
         submitSurvey env fetch answers =
         Rejected (Error (JStr "Failed to submit survey")))).
Proof.
  intros Hfetch. split.
  - intros parsed Hjson. unfold submitSurvey. rewrite Hfetch. cbn.
    destruct (ok resp); cbn; [tauto |].
    rewrite Hjson. cbn.
    destruct (get_prop parsed "detail"); cbn; split; discriminate.
  - intros Hok fields Hbody.
    pose proof (submitSurvey_not_ok env fetch answers resp fields
                  Hfetch Hok Hbody) as Hthrow.
    repeat split.
    + intros d Hd Ht. rewrite Hthrow, Hd. cbn. now rewrite Ht.
    + intros msg Hd Hne. rewrite Hthrow, Hd. cbn.
      apply String.eqb_neq in Hne. now rewrite Hne.
    + intros d Hd Ht. rewrite Hthrow, Hd. cbn. now rewrite Ht.
    + intros Hd. now rewrite Hthrow, Hd.
Qed.

Lemma submitSurvey_outcomes_witness :
  submitSurvey None (Sample.always Sample.response_400) Sample.answers
  = Rejected (Error (JStr "age out of range")).
Proof.
  refine (proj1 (proj2 (proj2 (submitSurvey_outcomes None
            (Sample.always Sample.response_400) Sample.answers
            Sample.response_400 eq_refl) eq_refl _ eq_refl))
          "age out of range" eq_refl _).
  discriminate.
Defined.
End ApiClient.

(** ** The engine: validation *)

Section Validation.
Import Js Engine.

Lemma run_ok (cfg : RuleTables) (now : string) (raw : json) (s : Summary) :
  run cfg now raw = Ok s <->
  exists a, validate raw = Ok a /\ s = assemble cfg now a.
Proof.
  unfold run. destruct (validate raw) as [a | e]; cbn.
  - split.
    + intros H. injection H as <-. now exists a.
    + intros (a' & Ha & ->). now injection Ha as ->.
  - split; [discriminate | intros (a' & Ha & _); discriminate].
Qed.

Lemma run_err (cfg : RuleTables) (now : string) (raw : json) (e : EngineError) :
  validate raw = Err e -> run cfg now raw = Err e.
Proof.
  intros H. unfold run. now rewrite H.
Qed.

Lemma in_range_false (lo hi q : Q) :
  q < lo \/ hi < q -> in_range lo hi q = false.
Proof.
  unfold in_range. intros [H | H]; apply Qle_bool_false in H; rewrite H.
  - reflexivity.
  - apply andb_false_r.
Qed.

Lemma integer_field_out_of_range (fields : list (string * json))
  (k : string) (lo hi q : Q) :
  lookup k fields = Some (JNum q) ->
  q < lo \/ hi < q ->
  integer_field (JObj fields) k lo hi = Err (ValidationError k).
Proof.
  intros Hk Hq. unfold integer_field. cbn. rewrite Hk. cbn.
  rewrite (in_range_false _ _ _ Hq), andb_false_r. reflexivity.
Qed.

(** C7.  A submission whose age is a number outside 18-80 is rejected with a
    [ValidationError] by the validator; the pipeline returns that error
    whatever the rule tables are, so no score, gauge or report is computed
    from it. *)
Theorem age_out_of_domain_is_rejected (fields : list (string * json)) (q : Q) :
  lookup "age" fields = Some (JNum q) ->
  q < 18 \/ 80 < q ->
  exists f,
    validate (JObj fields) = Err (ValidationError f)
    /\ (forall cfg now, run cfg now (JObj fields) = Err (ValidationError f))
    /\ (forall cfg now s, run cfg now (JObj fields) <> Ok s).
Proof.
  intros Hage Hq.
  assert (Hv : exists f, validate (JObj fields) = Err (ValidationError f)).
  { unfold validate.
    rewrite (integer_field_out_of_range fields "age" 18 80 q Hage Hq).
    cbn.
    destruct (lookup "name" fields) as [v |]; cbn; [| now exists "name"].
    destruct (as_string "name" v) as [n |] eqn:En; cbn.
    - destruct (check "name" (negb (n =? "")%string)) as [u |] eqn:Ec; cbn.
      + now exists "age".
      + unfold check in Ec. destruct (negb (n =? "")%string); [discriminate |].
        injection Ec as <-. now exists "name".
    - unfold as_string in En. destruct v; try discriminate;
        injection En as <-; now exists "name". }
  destruct Hv as (f & Hf). exists f. repeat split.
  - exact Hf.
  - intros cfg now. now apply run_err.
  - intros cfg now s. rewrite (run_err cfg now _ _ Hf). discriminate.
Qed.

Lemma age_out_of_domain_is_rejected_witness :
  exists f,
    validate Sample.raw_age_17 = Err (ValidationError f)
    /\ (forall cfg now, run cfg now Sample.raw_age_17 = Err (ValidationError f))
    /\ (forall cfg now s, run cfg now Sample.raw_age_17 <> Ok s).
Proof.
  unfold Sample.raw_age_17, Api.answers_to_json.
  apply (age_out_of_domain_is_rejected _ 17).
  - reflexivity.
  - left. reflexivity.
Defined.
End Validation.

(** ** The engine: ranges *)

Section Ranges.
Import Js Engine.

Lemma clamp_in_range (q : Q) : in_0_100 (clamp q).
Proof.
  unfold clamp, in_0_100.
  destruct (Qle_bool q 0) eqn:E0; [split; lra |].
  destruct (Qle_bool 100 q) eqn:E1; [split; lra |].
  apply Qle_bool_false in E0, E1. split; lra.
Qed.

Lemma build_scores_in_range (cfg : RuleTables) (a : SurveyAnswers) :
  scores_in_range (build_scores cfg a).
Proof.
  intros n. destruct n; apply clamp_in_range.
Qed.

Lemma build_gauges_in_range (cfg : RuleTables) (S : Scores) :
  gauges_in_range (build_gauges cfg S).
Proof.
  intros g. destruct g; apply clamp_in_range.
Qed.

(** C4.  For every submission the validator accepts, the pipeline produces a
    report, and each of its eleven scores and ten gauges lies in [0,100]. *)
Theorem scores_and_gauges_in_range (cfg : RuleTables) (now : string)
  (raw : json) (a : SurveyAnswers) :
  validate raw = Ok a ->
  exists s,
    run cfg now raw = Ok s
    /\ (forall n, In n all_scores -> 0 <= score_value n (scores s) <= 100)
    /\ (forall g, In g all_gauges -> 0 <= gauge_value g (gauges s) <= 100)
    /\ (forall n, In n all_scores) /\ List.length all_scores = 11%nat
    /\ (forall g, In g all_gauges) /\ List.length all_gauges = 10%nat.
Proof.
  intros Hv. exists (assemble cfg now a).
  split; [apply run_ok; now exists a |].
  split; [intros n _; apply build_scores_in_range |].
  split; [intros g _; apply build_gauges_in_range |].
  split; [intros n; destruct n; cbn; tauto |].
  split; [reflexivity |].
  split; [intros g; destruct g; cbn; tauto | reflexivity].
Qed.

Lemma scores_and_gauges_in_range_witness :
  exists s,
    run Sample.tables "2025-01-01T00:00:00Z" Sample.raw = Ok s
    /\ (forall n, In n all_scores -> 0 <= score_value n (scores s) <= 100)
    /\ (forall g, In g all_gauges -> 0 <= gauge_value g (gauges s) <= 100)
    /\ (forall n, In n all_scores) /\ List.length all_scores = 11%nat
    /\ (forall g, In g all_gauges) /\ List.length all_gauges = 10%nat.
Proof.
  apply (scores_and_gauges_in_range Sample.tables _ Sample.raw Sample.normalized).
  vm_compute. reflexivity.
Defined.

End Ranges.

(** ** The engine: recommendations *)

Section Ranking.
Import Js Engine ResultsPage.

Lemma firstn_is_prefix {A : Type} (n : nat) (l : list A) :
  exists rest, l = firstn n l ++ rest.
Proof.
  exists (skipn n l). symmetry. apply firstn_skipn.
Qed.

Lemma highlighted_from (i : nat) (l : list Recommendation.t) :
  map (fun b : Recommendation.t * string * nat => fst (fst b))
      (filter (fun b => String.eqb (snd (fst b)) "bg-primary/10 text-primary")
              (mapi_from recommendationBadge i l))
  = firstn (3 - i) l.
Proof.
  revert i. induction l as [| x l IH]; intros i.
  - now rewrite firstn_nil.
  - cbn [mapi_from filter recommendationBadge fst snd].
    destruct (i <? 3)%nat eqn:E.
    + apply Nat.ltb_lt in E.
      replace (3 - i)%nat with (S (3 - S i)) by lia.
      cbn. now rewrite IH.
    + apply Nat.ltb_ge in E.
      replace (3 - i)%nat with 0%nat by lia.
      cbn. rewrite IH.
      replace (3 - S i)%nat with 0%nat by lia. reflexivity.
Qed.

(** The dashboard highlights the first three entries of [all]. *)
Lemma highlighted_firstn (R : Recommendations) :
  highlighted R = firstn 3 (all R).
Proof.
  unfold highlighted, recommendationList, mapi. apply highlighted_from.
Qed.

(** C3.  In every report the engine produces, [top_3] is the list of the
    first three elements of [all]: a prefix of [all], equal to its first three
    elements when [all] has at least three and to [all] itself when it has
    fewer; it is the part of [all] the dashboard highlights. *)
Theorem top_3_is_prefix_of_all (cfg : RuleTables) (now : string) (raw : json)
  (s : Summary) :
  run cfg now raw = Ok s ->
  let R := recommendations s in
  top_3 R = firstn 3 (all R)
  /\ (exists rest, all R = top_3 R ++ rest)
  /\ (3 <= List.length (all R) ->
      exists r1 r2 r3 rest,
        all R = r1 :: r2 :: r3 :: rest /\ top_3 R = [r1; r2; r3])%nat
  /\ (List.length (all R) < 3 -> top_3 R = all R)%nat
  /\ highlighted R = top_3 R.
Proof.
  intros Hrun. apply run_ok in Hrun. destruct Hrun as (a & _ & ->).
  unfold assemble, build_recommendations.
  cbn [recommendations top_3 all]. set (ranked := rank cfg a _ _ _).
  split; [reflexivity |].
  split; [apply firstn_is_prefix |].
  split; [| split].
  - intros Hlen.
    destruct ranked as [| r1 [| r2 [| r3 rest]]]; cbn in Hlen; try lia.
    now exists r1, r2, r3, rest.
  - intros Hlen. apply firstn_all2. lia.
  - apply highlighted_firstn.
Qed.

Lemma top_3_is_prefix_of_all_witness :
  let R := recommendations Sample.summary in
  top_3 R = firstn 3 (all R)
  /\ (exists rest, all R = top_3 R ++ rest)
  /\ (3 <= List.length (all R) ->
      exists r1 r2 r3 rest,
        all R = r1 :: r2 :: r3 :: rest /\ top_3 R = [r1; r2; r3])%nat
  /\ (List.length (all R) < 3 -> top_3 R = all R)%nat
  /\ highlighted R = top_3 R.
Proof.
  apply (top_3_is_prefix_of_all Sample.tables "2025-01-01T00:00:00Z" Sample.raw).
  vm_compute. reflexivity.
Defined.
End Ranking.

(** ** The engine: targets *)

Section Targets.
Import Js Engine.

Lemma gauge_key_inj (g g' : GaugeName) : gauge_key g = gauge_key g' -> g = g'.
Proof.
  destruct g, g'; intros H; try reflexivity; discriminate H.
Qed.

Lemma next_tier_above_some (ladder : list Q) (current t : Q) :
  next_tier_above ladder current = Some t -> In t ladder /\ current < t.
Proof.
  intros H. apply find_some in H. destruct H as [Hin Hlt].
  split; [exact Hin | now apply Qltb_lt].
Qed.

Lemma next_tier_above_none (ladder : list Q) (current : Q) :
  next_tier_above ladder current = None <->
  forall t, In t ladder -> t <= current.
Proof.
  unfold next_tier_above. split.
  - intros H t Hin. apply Qltb_ge. exact (find_none _ _ H t Hin).
  - intros H. induction ladder as [| x l IH]; [reflexivity |].
    cbn. rewrite (proj2 (Qltb_ge current x)) by (apply H; now left).
    apply IH. intros t Hin. apply H. now right.
Qed.

Lemma next_tier_above_least (ladder : list Q) (current t : Q) :
  StronglySorted Qlt ladder ->
  next_tier_above ladder current = Some t ->
  forall t', In t' ladder -> current < t' -> t <= t'.
Proof.
  unfold next_tier_above.
  induction 1 as [| x l Hs IH Hx]; intros Hfind t' Hin Hlt; [contradiction |].
  cbn in Hfind. destruct (Qltb current x) eqn:E.
  - injection Hfind as <-. destruct Hin as [<- | Hin]; [lra |].
    rewrite Forall_forall in Hx. specialize (Hx t' Hin). lra.
  - apply Qltb_ge in E. destruct Hin as [<- | Hin]; [lra |].
    now apply IH.
Qed.

Lemma top_tier_in (ladder : list Q) (top : Q) :
  top_tier ladder = Some top -> In top ladder.
Proof.
  induction ladder as [| x l IH]; [discriminate |].
  cbn. destruct l as [| y l'].
  - intros H. injection H as <-. now left.
  - intros H. right. now apply IH.
Qed.

Lemma top_tier_max (ladder : list Q) (top : Q) :
  StronglySorted Qlt ladder ->
  top_tier ladder = Some top ->
  forall t, In t ladder -> t <= top.
Proof.
  induction 1 as [| x l Hs IH Hx]; [discriminate |].
  cbn [top_tier]. destruct l as [| y l'].
  - intros H t [<- | []]. injection H as <-. lra.
  - intros H t [<- | Hin].
    + rewrite Forall_forall in Hx.
      specialize (Hx top (top_tier_in _ _ H)). lra.
    + now apply IH.
Qed.

Lemma in_target_of (cfg : RuleTables) (G : Gauges) (g : GaugeName)
  (tg : Target.t) :
  In tg (target_of cfg G g) <->
  exists t, next_tier_above (tier_ladder cfg) (gauge_value g G) = Some t
            /\ tg = Target.mk (gauge_key g) (gauge_label cfg g)
                              (gauge_value g G) t (suggestion cfg g).
Proof.
  unfold target_of.
  destruct (next_tier_above (tier_ladder cfg) (gauge_value g G)) as [t |].
  - split.
    + intros [<- | []]. now exists t.
    + intros (t' & Ht & ->). injection Ht as <-. now left.
  - split; [contradiction | intros (t' & Ht & _); discriminate].
Qed.

Lemma in_build_targets (cfg : RuleTables) (G : Gauges) (tg : Target.t) :
  In tg (build_targets cfg G) <-> exists g, In tg (target_of cfg G g).
Proof.
  unfold build_targets. rewrite in_flat_map. split.
  - intros (g & _ & H). now exists g.
  - intros (g & H). exists g. split; [| exact H].
    destruct g; cbn; tauto.
Qed.

(** C6.  In every report the engine produces from an ascending tier ladder:
    a gauge at or above the top tier has no entry in the targets; a gauge
    below it has an entry, and every entry for it records the gauge's value
    as [current] and, as [next_tier], the smallest rung strictly greater than
    that value. *)
Theorem targets_follow_ladder (cfg : RuleTables) (now : string) (raw : json)
  (s : Summary) (g : GaugeName) (top : Q) :
  run cfg now raw = Ok s ->
  StronglySorted Qlt (tier_ladder cfg) ->
  top_tier (tier_ladder cfg) = Some top ->
  let current := gauge_value g (gauges s) in
  (top <= current ->
     forall tg, In tg (targets (charts s)) -> Target.key tg <> gauge_key g)
  /\ (current < top ->
     exists t,
       In t (tier_ladder cfg) /\ current < t
       /\ (forall t', In t' (tier_ladder cfg) -> current < t' -> t <= t')
       /\ (exists tg, In tg (targets (charts s)) /\ Target.key tg = gauge_key g)
       /\ (forall tg, In tg (targets (charts s)) ->
             Target.key tg = gauge_key g ->
             Target.current tg = current /\ Target.next_tier tg = t)).
Proof.
  intros Hrun Hsorted Htop current.
  apply run_ok in Hrun. destruct Hrun as (a & _ & ->).
  unfold assemble in *. cbn [charts gauges build_charts targets] in *.
  set (G := build_gauges cfg (build_scores cfg a)) in *.
  split.
  - intros Hge tg Hin Hkey.
    apply in_build_targets in Hin. destruct Hin as (g' & Hin).
    apply in_target_of in Hin. destruct Hin as (t & Ht & ->).
    cbn in Hkey. apply gauge_key_inj in Hkey. subst g'.
    apply next_tier_above_some in Ht. destruct Ht as [Hin Hlt].
    pose proof (top_tier_max _ _ Hsorted Htop t Hin). fold current in Hlt. lra.
  - intros Hlt.
    destruct (next_tier_above (tier_ladder cfg) current) as [t |] eqn:Hfind.
    + exists t.
      destruct (next_tier_above_some _ _ _ Hfind) as [Hin Hct].
      split; [exact Hin |]. split; [exact Hct |].
      split; [now apply (next_tier_above_least _ current) |].
      split.
      * eexists. split.
        -- apply in_build_targets. exists g. apply in_target_of.
           exists t. split; [exact Hfind | reflexivity].
        -- reflexivity.
      * intros tg Htg Hkey.
        apply in_build_targets in Htg. destruct Htg as (g' & Htg).
        apply in_target_of in Htg. destruct Htg as (t' & Ht' & ->).
        cbn in Hkey. apply gauge_key_inj in Hkey. subst g'.
        fold current in Ht'. cbn. split; [reflexivity | congruence].
    + exfalso.
      pose proof (proj1 (next_tier_above_none _ _) Hfind top
                    (top_tier_in _ _ Htop)).
      lra.
Qed.

Lemma sample_ladder_ascending : StronglySorted Qlt (tier_ladder Sample.tables).
Proof.
  repeat constructor.
Qed.

Lemma targets_follow_ladder_witness :
  let current := gauge_value g_consistency (gauges Sample.summary) in
  (95 <= current ->
     forall tg, In tg (targets (charts Sample.summary)) ->
                Target.key tg <> gauge_key g_consistency)
  /\ (current < 95 ->
     exists t,
       In t (tier_ladder Sample.tables) /\ current < t
       /\ (forall t', In t' (tier_ladder Sample.tables) -> current < t' -> t <= t')
       /\ (exists tg, In tg (targets (charts Sample.summary))
                      /\ Target.key tg = gauge_key g_consistency)
       /\ (forall tg, In tg (targets (charts Sample.summary)) ->
             Target.key tg = gauge_key g_consistency ->
             Target.current tg = current /\ Target.next_tier tg = t)).
Proof.
  apply (targets_follow_ladder Sample.tables "2025-01-01T00:00:00Z" Sample.raw).
  - vm_compute. reflexivity.
  - exact sample_ladder_ascending.
  - reflexivity.
Defined.
End Targets.

(** ** Runs on the sample data *)

Section Runs.
Import Js Api ResultsPage.

Example sortedAlerts_run :
  map Alert.key
    (sortedAlerts
       {| risk_flags := []; data_quality := [];
          alerts := [ Alert.mk "a" info "" ""; Alert.mk "b" high "" "";
                      Alert.mk "c" warn "" ""; Alert.mk "d" info "" "";
                      Alert.mk "e" high "" ""; Alert.mk "f" warn "" "" ] |})
  = ["b"; "e"; "c"; "f"; "a"; "d"].
Proof. reflexivity. Qed.

Example radarData_run :
  map value (radarData (gauges Sample.summary))
  = [140 # 2; 290 # 3; 100; 190 # 2; 60; 140 # 2; 100 - 0; 100 - (40 # 2)].
Proof. reflexivity. Qed.

Example labels_run :
  map (fun v => (MiniDonut_getLabel v true, getRiskLabel v true, getHexColor v true))
      [0; 25; 26; 50; 51; 100]
  = [ ("Низкий", "Низкий", "#10b981"); ("Низкий", "Низкий", "#10b981");
      ("Средний", "Средний", "#eab308"); ("Средний", "Средний", "#eab308");
      ("Высокий", "Высокий", "#ef4444"); ("Высокий", "Высокий", "#ef4444") ].
Proof. reflexivity. Qed.

Example getSurveyResults_run :
  getSurveyResults None (Sample.always Sample.response_200) "r-1"
    = Resolved Sample.record
  /\ getSurveyResults None (Sample.always Sample.response_404) "r-2"
    = Rejected (Error (JStr "Survey not found"))
  /\ getSurveyResults None (Sample.always {| status := 500; body := None |}) "r-1"
    = Rejected (Error (JStr "Failed to fetch results")).
Proof. repeat split. Qed.

Example results_request_run :
  url (results_request None "r-1") = "http://localhost:8000/api/results/r-1"
  /\ url (results_request (Some "https://api.example") "r-1")
     = "https://api.example/api/results/r-1".
Proof. split; reflexivity. Qed.

Example submitSurvey_run :
  submitSurvey None (Sample.always Sample.response_400) Sample.answers
    = Rejected (Error (JStr "age out of range"))
  /\ submitSurvey None (Sample.always Sample.response_400_empty_detail)
       Sample.answers
    = Rejected (Error (JStr "Failed to submit survey"))
  /\ submitSurvey None (Sample.always {| status := 500; body := Some (JObj []) |})
       Sample.answers
    = Rejected (Error (JStr "Failed to submit survey"))
  /\ submitSurvey None (Sample.always {| status := 502; body := None |})
       Sample.answers
    = Rejected SyntaxError.
Proof. repeat split. Qed.

Example validate_run :
  Engine.validate Sample.raw = Engine.Ok Sample.normalized
  /\ Engine.validate Sample.raw_age_17
     = Engine.Err (Engine.ValidationError "age")
  /\ Engine.run Sample.tables "2025-01-01T00:00:00Z" Sample.raw
     = Engine.Ok Sample.summary.
Proof. repeat split. Qed.

Example recommendations_run :
  map Recommendation.key (all (recommendations Sample.summary))
    = ["habits"; "neat"; "stress"]
  /\ map Recommendation.priority (all (recommendations Sample.summary))
    = [1%Z; 2%Z; 3%Z]
  /\ top_3 (recommendations Sample.summary) = all (recommendations Sample.summary).
Proof. repeat split. Qed.

Example targets_run :
  map (fun t => (Target.key t, Target.next_tier t)) (targets (charts Sample.summary))
  = [ ("lifestyle_balance", 75); ("metabolic_load", 50); ("cardio_risk", 50);
      ("consistency", 65); ("readiness", 75) ].
Proof. reflexivity. Qed.
End Runs.

(* ===================================================================== *)
(** * Further properties of the client                                    *)
(* ===================================================================== *)

(** ** The questionnaire as a state machine *)

Section QuestionnaireFacts.
Import Js SurveyPage Questionnaire.

Variable rt : Runtime.
Variable env : option string.
Variable fetch : Api.Request -> Promise Api.Response.

Lemma age_apply_change (c : FieldChange) (a : SurveyAnswers) :
  age (apply_change c a) = age a /\ name (apply_change c a) = name a.
Proof. split; reflexivity. Qed.

Lemma age_onChange_integer (val : string) (a : SurveyAnswers) :
  (exists z, age a = inject_Z z /\ (0 <= z <= 99)%Z) ->
  exists z, age (age_onChange rt val a) = inject_Z z /\ (0 <= z <= 99)%Z.
Proof.
  intros Ha. unfold age_onChange.
  destruct (val =? "")%string; [exists 0%Z; split; [reflexivity | lia] |].
  destruct (parseInt rt val) as [num |]; [| exact Ha].
  destruct ((0 <=? num) && (num <=? 99))%Z eqn:E; [| exact Ha].
  apply andb_true_iff in E. destruct E as [E0 E99].
  apply Z.leb_le in E0, E99. exists num. split; [reflexivity | lia].
Qed.

Lemma age_onBlur_integer (a : SurveyAnswers) :
  (exists z, age a = inject_Z z /\ (0 <= z <= 99)%Z) ->
  exists z, age (age_onBlur a) = inject_Z z /\ (0 <= z <= 99)%Z.
Proof.
  intros Ha. unfold age_onBlur.
  destruct (Qeq_bool (age a) 0 || Qltb (age a) 18);
    [exists 18%Z; split; [reflexivity | lia] |].
  destruct (Qltb 80 (age a)); [exists 80%Z; split; [reflexivity | lia] |].
  exact Ha.
Qed.

Lemma name_age_onChange (val : string) (a : SurveyAnswers) :
  name (age_onChange rt val a) = name a.
Proof.
  unfold age_onChange.
  destruct (val =? "")%string; [reflexivity |].
  destruct (parseInt rt val) as [num |]; [| reflexivity].
  now destruct ((0 <=? num) && (num <=? 99))%Z.
Qed.

Lemma name_age_onBlur (a : SurveyAnswers) : name (age_onBlur a) = name a.
Proof.
  unfold age_onBlur.
  destruct (Qeq_bool (age a) 0 || Qltb (age a) 18); [reflexivity |].
  now destruct (Qltb 80 (age a)).
Qed.

Lemma canProceed_age_domain (a : SurveyAnswers) :
  canProceed_age a = true -> 18 <= age a <= 80.
Proof.
  unfold canProceed_age. intros H.
  apply andb_true_iff in H. destruct H as [H H80].
  apply andb_true_iff in H. destruct H as [_ H18].
  apply Qle_bool_iff in H18, H80. now split.
Qed.

Lemma handleSubmit_keeps (st : State) :
  step (fst (handleSubmit rt env fetch st)) = step st
  /\ answers (fst (handleSubmit rt env fetch st)) = answers st.
Proof.
  unfold handleSubmit.
  destruct (bind (Api.submitSurvey env fetch (answers st)) _); split; reflexivity.
Qed.

Lemma handle_preserves (st : State) (ev : Event) :
  page_invariant rt st -> enabled rt st ev = true ->
  page_invariant rt (handle rt env fetch st ev).
Proof.
  unfold page_invariant, TOTAL_STEPS.
  intros (Hstep & Hint & Hage & Hname) Hen.
  destruct ev; cbn [enabled handle] in *.
  - (* name *)
    apply Z.eqb_eq in Hen. cbn.
    split; [lia |]. split; [exact Hint |]. split; intros; lia.
  - (* age, typed *)
    apply Z.eqb_eq in Hen. cbn [step answers with_answers].
    split; [lia |]. split; [now apply age_onChange_integer |].
    split; [intros; lia |]. rewrite name_age_onChange. exact Hname.
  - (* age, blurred *)
    apply Z.eqb_eq in Hen. cbn [step answers with_answers].
    split; [lia |]. split; [now apply age_onBlur_integer |].
    split; [intros; lia |]. rewrite name_age_onBlur. exact Hname.
  - (* another field *)
    cbn [step answers with_answers].
    destruct (age_apply_change c (answers st)) as [-> ->].
    exact (conj Hstep (conj Hint (conj Hage Hname))).
  - (* next *)
    apply andb_true_iff in Hen. destruct Hen as [Hlt Hcan].
    apply Z.ltb_lt in Hlt. unfold TOTAL_STEPS in Hlt.
    unfold handleNext, TOTAL_STEPS. rewrite (proj2 (Z.ltb_lt _ _) Hlt).
    unfold canProceed in Hcan. cbn [step answers with_step].
    split; [lia |]. split; [exact Hint |].
    destruct (step st =? 1)%Z eqn:E1.
    + apply Z.eqb_eq in E1. split; [intros; lia |]. intros _.
      apply andb_true_iff in Hcan. destruct Hcan as [Hn Ht].
      apply negb_true_iff, String.eqb_neq in Hn. apply Nat.ltb_lt in Ht.
      now split.
    + apply Z.eqb_neq in E1.
      destruct (step st =? 2)%Z eqn:E2.
      * apply Z.eqb_eq in E2. split.
        -- intros _. now apply canProceed_age_domain.
        -- intros _. apply Hname. lia.
      * apply Z.eqb_neq in E2. split.
        -- intros _. apply Hage. lia.
        -- intros _. apply Hname. lia.
  - (* back *)
    apply andb_true_iff in Hen. destruct Hen as [Hgt _].
    apply Z.gtb_lt in Hgt.
    unfold handleBack. rewrite (proj2 (Z.gtb_lt _ _) Hgt).
    cbn [step answers with_step].
    split; [lia |]. split; [exact Hint |].
    split; intros H; [apply Hage | apply Hname]; lia.
  - (* submit *)
    destruct (handleSubmit_keeps st) as [-> ->].
    exact (conj Hstep (conj Hint (conj Hage Hname))).
Qed.

Lemma reachable_invariant (st : State) :
  reachable rt env fetch st -> page_invariant rt st.
Proof.
  induction 1 as [| st ev _ IH Hen].
  - unfold page_invariant, TOTAL_STEPS. cbn.
    split; [lia |]. split; [exists 30%Z; split; [reflexivity | lia] |].
    split; intros; lia.
  - now apply handle_preserves.
Qed.

Lemma run_events_reachable (evs : list Event) :
  reachable rt env fetch (run_events rt env fetch evs).
Proof.
  unfold run_events.
  assert (H : forall st, reachable rt env fetch st ->
            reachable rt env fetch
              (fold_left (fun st ev =>
                 if enabled rt st ev then handle rt env fetch st ev else st)
               evs st)).
  { induction evs as [| ev evs IH]; intros st Hst; [exact Hst |].
    cbn [fold_left]. apply IH.
    destruct (enabled rt st ev) eqn:E; [| exact Hst].
    now apply reachable_event. }
  apply H. constructor.
Qed.
End QuestionnaireFacts.

Section QuestionnaireProperties.
Import Js SurveyPage Questionnaire.

(** X1.  Whatever the user does, the step stays one of the ten: the title
    looked up for it exists, and the progress bar shows between 10 and 100,
    reaching 100 exactly on the last step. *)
Theorem questionnaire_step_in_range (rt : Runtime) (env : option string)
  (fetch : Api.Request -> Promise Api.Response) (st : State) :
  reachable rt env fetch st ->
  (1 <= step st <= TOTAL_STEPS)%Z
  /\ (exists title, stepTitle (step st) = Some title)
  /\ 10 <= progress (step st) <= 100
  /\ (progress (step st) == 100 <-> step st = TOTAL_STEPS).
Proof.
  intros Hr. apply reachable_invariant in Hr. destruct Hr as (Hstep & _).
  unfold TOTAL_STEPS in *. split; [exact Hstep |]. split.
  - unfold stepTitle. rewrite (proj2 (Z.ltb_ge _ _)) by lia.
    destruct (nth_error stepTitles (Z.to_nat (step st - 1))) as [t |] eqn:E.
    + now exists t.
    + apply nth_error_None in E. cbn in E. lia.
  - assert (Hp : progress (step st) == inject_Z (step st) * 10).
    { unfold progress, TOTAL_STEPS. field. }
    assert (H1 : 1 <= inject_Z (step st)).
    { change 1 with (inject_Z 1). rewrite <- Zle_Qle. lia. }
    assert (H10 : inject_Z (step st) <= 10).
    { change 10 with (inject_Z 10). rewrite <- Zle_Qle. lia. }
    rewrite Hp. split; [split; lra |]. split.
    + intros H. apply (inject_Z_injective (step st) 10).
      change (inject_Z 10) with 10. lra.
    + intros ->. reflexivity.
Qed.

Lemma questionnaire_step_in_range_witness :
  let st := run_events SampleRuntime.rt None (Sample.always Sample.response_200)
              [name_input "Anna"; next_click; age_input "41"; next_click;
               next_click; back_click] in
  (1 <= step st <= TOTAL_STEPS)%Z
  /\ (exists title, stepTitle (step st) = Some title)
  /\ 10 <= progress (step st) <= 100
  /\ (progress (step st) == 100 <-> step st = TOTAL_STEPS).
Proof.
  apply (questionnaire_step_in_range SampleRuntime.rt None
           (Sample.always Sample.response_200)).
  apply run_events_reachable.
Defined.

(** X2.  Between the first and the last step, Back undoes Next and Next
    undoes Back; Next does nothing on the last step and Back nothing on the
    first. *)
Theorem next_and_back_are_inverse (n : Z) :
  ((1 <= n < TOTAL_STEPS)%Z -> handleBack (handleNext n) = n)
  /\ ((1 < n <= TOTAL_STEPS)%Z -> handleNext (handleBack n) = n)
  /\ handleNext TOTAL_STEPS = TOTAL_STEPS
  /\ handleBack 1 = 1%Z.
Proof.
  unfold handleNext, handleBack, TOTAL_STEPS. repeat split.
  - intros H. rewrite (proj2 (Z.ltb_lt n 10)) by lia.
    now rewrite (proj2 (Z.gtb_lt (n + 1) 1)) by lia; lia.
  - intros H. rewrite (proj2 (Z.gtb_lt n 1)) by lia.
    now rewrite (proj2 (Z.ltb_lt (n - 1) 10)) by lia; lia.
Qed.

Lemma next_and_back_are_inverse_witness : handleBack (handleNext 4) = 4%Z.
Proof.
  apply (proj1 (next_and_back_are_inverse 4)). unfold TOTAL_STEPS. lia.
Defined.

(** X3.  Whatever is typed into the age input, the age held by the page is
    an integer between 0 and 99. *)
Theorem age_is_an_integer_of_0_99 (rt : Runtime) (env : option string)
  (fetch : Api.Request -> Promise Api.Response) (st : State) :
  reachable rt env fetch st ->
  exists z, age (answers st) = inject_Z z /\ (0 <= z <= 99)%Z.
Proof.
  intros Hr. apply reachable_invariant in Hr. now destruct Hr as (_ & H & _).
Qed.

Lemma age_is_an_integer_of_0_99_witness :
  exists z,
    age (answers (run_events SampleRuntime.rt None
                    (Sample.always Sample.response_200)
                    [name_input "Anna"; next_click; age_input "7";
                     age_input "712"; age_input "x"])) = inject_Z z
    /\ (0 <= z <= 99)%Z.
Proof.
  apply (age_is_an_integer_of_0_99 SampleRuntime.rt None
           (Sample.always Sample.response_200)).
  apply run_events_reachable.
Defined.

(** X4.  The Submit button can only be pressed on the last step, and the
    answers it sends carry an integer age between 18 and 80 and a name that is
    not blank. *)
Theorem submitted_answers_pass_the_steps (rt : Runtime) (env : option string)
  (fetch : Api.Request -> Promise Api.Response) (st : State) :
  reachable rt env fetch st ->
  enabled rt st submit_click = true ->
  step st = TOTAL_STEPS
  /\ (exists z, age (answers st) = inject_Z z /\ (18 <= z <= 80)%Z)
  /\ name (answers st) <> ""
  /\ (0 < String.length (trim rt (name (answers st))))%nat.
Proof.
  intros Hr Hen. apply reachable_invariant in Hr.
  destruct Hr as (Hstep & (z & Hz & Hz99) & Hage & Hname).
  cbn in Hen. apply andb_true_iff in Hen. destruct Hen as [Hlast _].
  apply negb_true_iff, Z.ltb_ge in Hlast. unfold TOTAL_STEPS in *.
  assert (Hs : step st = 10%Z) by lia.
  split; [exact Hs |]. split.
  - exists z. split; [exact Hz |].
    destruct Hage as [H18 H80]; [lia |]. rewrite Hz in H18, H80.
    change 18 with (inject_Z 18) in H18. change 80 with (inject_Z 80) in H80.
    rewrite <- Zle_Qle in H18, H80. lia.
  - apply Hname. lia.
Qed.

Lemma submitted_answers_pass_the_steps_witness :
  let st := run_events SampleRuntime.rt None (Sample.always Sample.response_200)
              [name_input "Anna"; next_click; age_input "41"; next_click;
               next_click; next_click; next_click; next_click; next_click;
               next_click; next_click; field_input (smokes_change true)] in
  step st = TOTAL_STEPS
  /\ (exists z, age (answers st) = inject_Z z /\ (18 <= z <= 80)%Z)
  /\ name (answers st) <> ""
  /\ (0 < String.length (trim SampleRuntime.rt (name (answers st))))%nat.
Proof.
  apply (submitted_answers_pass_the_steps SampleRuntime.rt None
           (Sample.always Sample.response_200)).
  - apply run_events_reachable.
  - vm_compute. reflexivity.
Defined.

(** X5.  Leaving the age input clamps the age into 18-80: the result is
    always in that range, an age already in it is left as it is, the other
    answers are untouched, and a second blur changes nothing. *)
Theorem age_onBlur_clamps (a : SurveyAnswers) :
  18 <= age (age_onBlur a) <= 80
  /\ (18 <= age a <= 80 -> age_onBlur a = a)
  /\ age_onBlur (age_onBlur a) = age_onBlur a
  /\ set_age (age_onBlur a) (age a) = set_age a (age a).
Proof.
  split; [apply age_onBlur_in_domain |].
  assert (Hid : forall b, 18 <= age b <= 80 -> age_onBlur b = b).
  { intros b [H18 H80]. unfold age_onBlur.
    assert (E0 : Qeq_bool (age b) 0 = false).
    { destruct (Qeq_bool (age b) 0) eqn:E; [| reflexivity].
      apply Qeq_bool_iff in E. lra. }
    rewrite E0, (proj2 (Qltb_ge (age b) 18) H18),
      (proj2 (Qltb_ge 80 (age b)) H80).
    reflexivity. }
  split; [exact (Hid a) |]. split.
  - apply Hid. apply age_onBlur_in_domain.
  - unfold age_onBlur.
    destruct (Qeq_bool (age a) 0 || Qltb (age a) 18); [reflexivity |].
    now destruct (Qltb 80 (age a)).
Qed.

Lemma age_onBlur_clamps_witness : age_onBlur Sample.answers = Sample.answers.
Proof.
  apply (proj1 (proj2 (age_onBlur_clamps Sample.answers))).
  split; cbn; lra.
Defined.
End QuestionnaireProperties.

(** ** Submitting the questionnaire and loading the results *)

Section SubmitAndLoad.
Import Js Api Questionnaire.

Lemma submitSurvey_ok (env : option string) (fetch : Request -> Promise Response)
  (a : SurveyAnswers) (resp : Response) :
  fetch (submit_request env a) = Resolved resp ->
  ok resp = true ->
  submitSurvey env fetch a = response_json resp.
Proof.
  intros Hf Hok. unfold submitSurvey. rewrite Hf. cbn. now rewrite Hok.
Qed.

Lemma getSurveyResults_ok (env : option string)
  (fetch : Request -> Promise Response) (id : string) (resp : Response) :
  fetch (results_request env id) = Resolved resp ->
  ok resp = true ->
  getSurveyResults env fetch id = response_json resp.
Proof.
  intros Hf Hok. unfold getSurveyResults. rewrite Hf. cbn. now rewrite Hok.
Qed.

(** X6.  When the server accepts the submission and its answer is an object
    whose [id] is a string, the page navigates to the results route of that
    id, clears the error and stays in the loading state. *)
Theorem handleSubmit_navigates_to_results (rt : Runtime) (env : option string)
  (fetch : Request -> Promise Response) (st : State) (resp : Response)
  (fields : list (string * json)) (id : string) :
  fetch (submit_request env (answers st)) = Resolved resp ->
  ok resp = true ->
  body resp = Some (JObj fields) ->
  lookup "id" fields = Some (JStr id) ->
  handleSubmit rt env fetch st =
  ({| step := step st; loading := true; error := None; answers := answers st |},
   Some ("/results/" ++ id)%string).
Proof.
  intros Hf Hok Hb Hid. unfold handleSubmit.
  rewrite (submitSurvey_ok _ _ _ _ Hf Hok). unfold response_json.
  rewrite Hb. cbn. now rewrite Hid.
Qed.

Lemma handleSubmit_navigates_to_results_witness :
  handleSubmit SampleRuntime.rt None (Sample.always Sample.response_200)
    Questionnaire.initial =
  ({| step := 1; loading := true; error := None;
      answers := answers Questionnaire.initial |},
   Some "/results/r-1").
Proof.
  apply (handleSubmit_navigates_to_results SampleRuntime.rt None
           (Sample.always Sample.response_200) Questionnaire.initial
           Sample.response_200 _ "r-1" eq_refl eq_refl eq_refl eq_refl).
Defined.

(** X7.  When the server accepts the submission but its answer is an object
    without an [id], the page still navigates, to the route
    [/results/undefined]. *)
Theorem handleSubmit_without_id (rt : Runtime) (env : option string)
  (fetch : Request -> Promise Response) (st : State) (resp : Response)
  (fields : list (string * json)) :
  fetch (submit_request env (answers st)) = Resolved resp ->
  ok resp = true ->
  body resp = Some (JObj fields) ->
  lookup "id" fields = None ->
  snd (handleSubmit rt env fetch st) = Some "/results/undefined".
Proof.
  intros Hf Hok Hb Hid. unfold handleSubmit.
  rewrite (submitSurvey_ok _ _ _ _ Hf Hok). unfold response_json.
  rewrite Hb. cbn. now rewrite Hid.
Qed.

Lemma handleSubmit_without_id_witness :
  snd (handleSubmit SampleRuntime.rt None
         (Sample.always {| status := 201; body := Some (JObj []) |})
         Questionnaire.initial)
  = Some "/results/undefined".
Proof.
  apply (handleSubmit_without_id SampleRuntime.rt None
           (Sample.always {| status := 201; body := Some (JObj []) |})
           Questionnaire.initial {| status := 201; body := Some (JObj []) |}
           [] eq_refl eq_refl eq_refl eq_refl).
Defined.

(** X8.  When the server refuses the submission with a non-empty string
    [detail], the page shows that text, does not navigate, keeps the step and
    the answers, and leaves the loading state, so that on the last step Submit
    can be pressed again. *)
Theorem handleSubmit_shows_detail (rt : Runtime) (env : option string)
  (fetch : Request -> Promise Response) (st : State) (resp : Response)
  (fields : list (string * json)) (detail : string) :
  fetch (submit_request env (answers st)) = Resolved resp ->
  ok resp = false ->
  body resp = Some (JObj fields) ->
  lookup "detail" fields = Some (JStr detail) ->
  detail <> "" ->
  handleSubmit rt env fetch st =
  ({| step := step st; loading := false; error := Some detail;
      answers := answers st |}, None)
  /\ enabled rt (fst (handleSubmit rt env fetch st)) submit_click
     = negb (step st <? SurveyPage.TOTAL_STEPS)%Z.
Proof.
  intros Hf Hok Hb Hd Hne.
  assert (E : handleSubmit rt env fetch st =
              ({| step := step st; loading := false; error := Some detail;
                  answers := answers st |}, None)).
  { unfold handleSubmit.
    rewrite (submitSurvey_not_ok env fetch (answers st) resp fields Hf Hok Hb).
    rewrite Hd. cbn. apply String.eqb_neq in Hne. now rewrite Hne. }
  split; [exact E |]. rewrite E. cbn. apply andb_true_r.
Qed.

Lemma handleSubmit_shows_detail_witness :
  handleSubmit SampleRuntime.rt None (Sample.always Sample.response_400)
    Questionnaire.initial =
  ({| step := 1; loading := false; error := Some "age out of range";
      answers := answers Questionnaire.initial |}, None)
  /\ enabled SampleRuntime.rt
       (fst (handleSubmit SampleRuntime.rt None
               (Sample.always Sample.response_400) Questionnaire.initial))
       submit_click
     = negb (1 <? SurveyPage.TOTAL_STEPS)%Z.
Proof.
  apply (handleSubmit_shows_detail SampleRuntime.rt None
           (Sample.always Sample.response_400) Questionnaire.initial
           Sample.response_400 _ "age out of range"
           eq_refl eq_refl eq_refl eq_refl).
  discriminate.
Defined.
End SubmitAndLoad.

Section LoadingTheResults.
Import Js Api ResultsView.

Lemma early_return_spinner (st : PageState) :
  early_return st = Some Spinner <-> loading st = true.
Proof.
  unfold early_return. destruct (loading st).
  - split; reflexivity.
  - destruct (error_truthy (error st) || data_falsy (data st));
      split; discriminate.
Qed.

Lemma fetchData_clears_loading (rt : Runtime) (env : option string)
  (fetch : Request -> Promise Response) (id : string) (st : PageState) :
  loading (fetchData rt env fetch id st) = false.
Proof.
  unfold fetchData. now destruct (getSurveyResults env fetch id).
Qed.

(** X9.  Before the request is answered the page returns the spinner.  Once
    it is answered the page never returns it again: it returns the error card
    with "Survey not found" for a 404, with "Failed to fetch results" for any
    other refusal, and with "Данные не найдены" for an accepted request whose
    body is [null] or another falsy value.  It takes neither early return,
    going on to build the dashboard from the stored record, exactly when the
    request is accepted and its body is a truthy value. *)
Theorem results_page_early_returns (rt : Runtime) (env : option string)
  (fetch : Request -> Promise Response) (id : string) (resp : Response) :
  fetch (results_request env id) = Resolved resp ->
  let st := fetchData rt env fetch id initial in
  early_return initial = Some Spinner
  /\ early_return st <> Some Spinner
  /\ (status resp = 404%Z ->
        early_return st = Some (Failure "Survey not found"))
  /\ (ok resp = false -> status resp <> 404%Z ->
        early_return st = Some (Failure "Failed to fetch results"))
  /\ (forall r, ok resp = true -> body resp = Some r -> truthy r = false ->
        early_return st = Some (Failure "Данные не найдены"))
  /\ (early_return st = None <->
        ok resp = true
        /\ exists r, body resp = Some r /\ truthy r = true /\ data st = Some r).
Proof.
  intros Hf st. split; [reflexivity |]. split.
  { intros H. apply early_return_spinner in H. subst st.
    rewrite fetchData_clears_loading in H. discriminate. }
  subst st. unfold fetchData, getSurveyResults.
  rewrite Hf. cbn [bind Monad_Promise await].
  split; [| split; [| split]].
  - intros H404. rewrite (not_found_is_not_ok _ H404). cbn.
    apply Z.eqb_eq in H404. now rewrite H404.
  - intros Hok H404. rewrite Hok. cbn.
    apply Z.eqb_neq in H404. now rewrite H404.
  - intros r Hok Hb Ht. rewrite Hok. cbn. unfold response_json.
    rewrite Hb. unfold early_return. cbn. now rewrite Ht.
  - destruct (ok resp); cbn.
    + unfold response_json. destruct (body resp) as [r |].
      * unfold early_return. cbn. destruct (truthy r) eqn:Ht; cbn.
        -- split; [intros _ | reflexivity].
           split; [reflexivity |]. now exists r.
        -- split; [discriminate |].
           intros (_ & r' & Hr & Ht' & _). injection Hr as <-. congruence.
      * split; [| intros (_ & r' & Hr & _); discriminate].
        unfold early_return. cbn.
        destruct (builtin_message rt SyntaxError =? "")%string; discriminate.
    + split; [| intros (Hok & _); discriminate].
      destruct (status resp =? 404)%Z; discriminate.
Qed.

Lemma results_page_early_returns_witness :
  early_return (fetchData SampleRuntime.rt None
                  (Sample.always Sample.response_404) "r-9" initial)
  = Some (Failure "Survey not found").
Proof.
  apply (results_page_early_returns SampleRuntime.rt None
           (Sample.always Sample.response_404) "r-9" Sample.response_404
           eq_refl).
  reflexivity.
Defined.

(** X10.  [fetchData] never clears an error: if the page already holds a
    non-empty error text, a later request that succeeds stores the record but
    the page still returns the error card with that text instead of going on
    to the dashboard. *)
Theorem fetchData_keeps_earlier_error (rt : Runtime) (env : option string)
  (fetch : Request -> Promise Response) (id : string) (resp : Response)
  (st : PageState) (e : string) (r : json) :
  fetch (results_request env id) = Resolved resp ->
  ok resp = true ->
  body resp = Some r ->
  error st = Some e ->
  e <> "" ->
  data (fetchData rt env fetch id st) = Some r
  /\ early_return (fetchData rt env fetch id st) = Some (Failure e).
Proof.
  intros Hf Hok Hb He Hne. unfold fetchData.
  rewrite (getSurveyResults_ok _ _ _ _ Hf Hok). unfold response_json.
  rewrite Hb. unfold early_return. cbn. rewrite He. cbn.
  apply String.eqb_neq in Hne. now rewrite Hne.
Qed.

Lemma fetchData_keeps_earlier_error_witness :
  let failed := fetchData SampleRuntime.rt None
                  (Sample.always Sample.response_404) "r-9" initial in
  data (fetchData SampleRuntime.rt None (Sample.always Sample.response_200)
          "r-1" failed) = Some Sample.record
  /\ early_return (fetchData SampleRuntime.rt None
                     (Sample.always Sample.response_200) "r-1" failed)
     = Some (Failure "Survey not found").
Proof.
  apply (fetchData_keeps_earlier_error SampleRuntime.rt None
           (Sample.always Sample.response_200) "r-1" Sample.response_200
           (fetchData SampleRuntime.rt None
              (Sample.always Sample.response_404) "r-9" initial)
           "Survey not found" Sample.record);
    try reflexivity.
  discriminate.
Defined.

(** X11.  [submitSurvey] never resolves on a refused request, and what it
    rejects with depends on the body alone: the parser's [SyntaxError] when
    the body is not JSON, a [TypeError] when it is [null], and an [Error] with
    the fallback message when it is any other value that is not an object. *)
Theorem submitSurvey_refused (env : option string)
  (fetch : Request -> Promise Response) (a : SurveyAnswers) (resp : Response) :
  fetch (submit_request env a) = Resolved resp ->
  ok resp = false ->
  (exists e, submitSurvey env fetch a = Rejected e)
  /\ (body resp = None -> submitSurvey env fetch a = Rejected SyntaxError)
  /\ (body resp = Some JNull -> submitSurvey env fetch a = Rejected TypeError)
  /\ (forall v, body resp = Some v -> v <> JNull ->
        (forall fields, v <> JObj fields) ->
        submitSurvey env fetch a
        = Rejected (Error (JStr "Failed to submit survey"))).
Proof.
  intros Hf Hok. unfold submitSurvey. rewrite Hf. cbn. rewrite Hok. cbn.
  unfold response_json. split; [| split; [| split]].
  - destruct (body resp) as [v |]; cbn; [| now eexists].
    destruct (get_prop v "detail"); cbn; now eexists.
  - now intros ->.
  - now intros ->.
  - intros v -> Hnull Hobj. cbn.
    destruct v; try reflexivity; [contradiction | now destruct (Hobj fields)].
Qed.

Lemma submitSurvey_refused_witness :
  submitSurvey None (Sample.always {| status := 502; body := None |})
    Sample.answers = Rejected SyntaxError.
Proof.
  apply (submitSurvey_refused None
           (Sample.always {| status := 502; body := None |}) Sample.answers
           {| status := 502; body := None |} eq_refl eq_refl).
  reflexivity.
Defined.

(** X12.  Both calls pass a failure of the request itself through unchanged,
    and both reject with the parser's [SyntaxError] when an accepted request
    has a body that is not JSON. *)
Theorem api_calls_pass_failures_through (env : option string)
  (fetch : Request -> Promise Response) (a : SurveyAnswers) (id : string) :
  (forall e, fetch (submit_request env a) = Rejected e ->
     submitSurvey env fetch a = Rejected e)
  /\ (forall e, fetch (results_request env id) = Rejected e ->
     getSurveyResults env fetch id = Rejected e)
  /\ (forall resp, fetch (submit_request env a) = Resolved resp ->
     ok resp = true -> body resp = None ->
     submitSurvey env fetch a = Rejected SyntaxError)
  /\ (forall resp, fetch (results_request env id) = Resolved resp ->
     ok resp = true -> body resp = None ->
     getSurveyResults env fetch id = Rejected SyntaxError).
Proof.
  split; [| split; [| split]].
  - intros e Hf. unfold submitSurvey. now rewrite Hf.
  - intros e Hf. unfold getSurveyResults. now rewrite Hf.
  - intros resp Hf Hok Hb. rewrite (submitSurvey_ok _ _ _ _ Hf Hok).
    unfold response_json. now rewrite Hb.
  - intros resp Hf Hok Hb. rewrite (getSurveyResults_ok _ _ _ _ Hf Hok).
    unfold response_json. now rewrite Hb.
Qed.

Lemma api_calls_pass_failures_through_witness :
  getSurveyResults None (fun _ => Rejected TypeError) "r-1" = Rejected TypeError.
Proof.
  apply (proj1 (proj2 (api_calls_pass_failures_through None
                         (fun _ => Rejected TypeError) Sample.answers "r-1"))).
  reflexivity.
Defined.
End LoadingTheResults.

(** ** The animated number *)

Section AnimatedNumberFacts.
Import AnimatedNumber.

Lemma Qfloor_unique (x : Q) (z : Z) :
  inject_Z z <= x -> x < inject_Z (z + 1) -> Qfloor x = z.
Proof.
  intros Hlo Hhi.
  pose proof (Qfloor_resp_le _ _ Hlo) as H1. rewrite Qfloor_Z in H1.
  pose proof (Qfloor_le x) as H2.
  assert (H3 : inject_Z (Qfloor x) < inject_Z (z + 1)) by lra.
  rewrite <- Zlt_Qlt in H3. lia.
Qed.

Lemma Math_round_integer (z : Z) : Math_round (inject_Z z) = z.
Proof.
  unfold Math_round. apply Qfloor_unique.
  - lra.
  - rewrite inject_Z_plus. change (inject_Z 1) with 1. lra.
Qed.

Lemma Math_round_mono (x y : Q) : x <= y -> (Math_round x <= Math_round y)%Z.
Proof.
  intros H. unfold Math_round. apply Qfloor_resp_le. lra.
Qed.

Lemma Math_round_comp (x y : Q) : x == y -> Math_round x = Math_round y.
Proof.
  intros H. unfold Math_round. apply Qfloor_comp. now rewrite H.
Qed.

Lemma Math_min_cases (a b : Q) :
  (a <= b /\ Math_min a b = a) \/ (b < a /\ Math_min a b = b).
Proof.
  unfold Math_min. destruct (Qle_bool a b) eqn:E.
  - left. split; [now apply Qle_bool_iff | reflexivity].
  - right. split; [now apply Qle_bool_false | reflexivity].
Qed.

Lemma pow4 (a : Q) : a ^ 4 == a * a * a * a.
Proof. simpl. ring. Qed.

Lemma easeOutQuart_mono (p q : Q) :
  0 <= p -> p <= q -> q <= 1 -> 0 <= easeOutQuart p <= easeOutQuart q
                                /\ easeOutQuart q <= 1.
Proof.
  intros Hp Hpq Hq. unfold easeOutQuart. rewrite !pow4.
  set (a := 1 - q). set (b := 1 - p).
  assert (Ha : 0 <= a) by (unfold a; lra).
  assert (Hab : a <= b) by (unfold a, b; lra).
  assert (Hb : b <= 1) by (unfold b; lra).
  assert (Haa : 0 <= a * a) by nra.
  assert (Hbb : a * a <= b * b) by nra.
  assert (Hb1 : b * b <= 1) by nra.
  assert (H4 : a * a * a * a <= b * b * b * b) by nra.
  assert (H0 : 0 <= a * a * a * a) by nra.
  assert (H1 : b * b * b * b <= 1) by nra.
  repeat split; lra.
Qed.

Lemma easeOutQuart_ends : easeOutQuart 0 == 0 /\ easeOutQuart 1 == 1.
Proof. split; reflexivity. Qed.

(** The progress after [elapsed] milliseconds. *)
Lemma progress_bounds (elapsed duration : Q) :
  0 < duration -> 0 <= elapsed ->
  0 <= Math_min (elapsed / (duration * 1000)) 1 <= 1.
Proof.
  intros Hd He.
  assert (H : 0 <= elapsed / (duration * 1000)).
  { apply Qle_shift_div_l; lra. }
  destruct (Math_min_cases (elapsed / (duration * 1000)) 1) as [[H1 ->] | [H1 ->]];
    split; lra.
Qed.

Lemma progress_mono (e1 e2 duration : Q) :
  0 < duration -> e1 <= e2 ->
  Math_min (e1 / (duration * 1000)) 1 <= Math_min (e2 / (duration * 1000)) 1.
Proof.
  intros Hd He.
  assert (H : e1 / (duration * 1000) <= e2 / (duration * 1000)).
  { apply Qmult_le_compat_r; [exact He |].
    apply Qinv_le_0_compat. lra. }
  destruct (Math_min_cases (e1 / (duration * 1000)) 1) as [[H1 ->] | [H1 ->]];
    destruct (Math_min_cases (e2 / (duration * 1000)) 1) as [[H2 ->] | [H2 ->]];
    lra.
Qed.

Lemma start_kept (s currentTime value duration : Q) :
  ~ s == 0 ->
  startTime (animate value duration (Some s) currentTime) = Some s.
Proof.
  intros Hs. unfold animate. cbn.
  destruct (Qeq_bool s 0) eqn:E; [| reflexivity].
  apply Qeq_bool_iff in E. contradiction.
Qed.

(** X13.  The first frame of the animation records its time, shows 0 and asks
    for another frame, and so does every frame that finds 0 as the recorded
    start time, the script taking it for a start not yet recorded.  A frame
    that comes once the duration has elapsed since a recorded start other than
    0 shows the rounded value, which is the value itself when it is an
    integer, and asks for no further frame. *)
Theorem animation_starts_at_0_and_ends_on_value (value duration : Q) :
  0 < duration ->
  (forall t,
     animate value duration None t =
     {| startTime := Some t; displayValue := 0; requested := true |})
  /\ (forall s t,
        ~ s == 0 -> duration * 1000 <= t - s ->
        displayValue (animate value duration (Some s) t) = Math_round value
        /\ requested (animate value duration (Some s) t) = false
        /\ (forall z, value = inject_Z z ->
              displayValue (animate value duration (Some s) t) = z))
  /\ (forall s t,
        s == 0 ->
        animate value duration (Some s) t =
        {| startTime := Some t; displayValue := 0; requested := true |}).
Proof.
  intros Hd.
  assert (Hfirst : forall t,
            animate value duration None t =
            {| startTime := Some t; displayValue := 0; requested := true |}).
  { intros t. unfold animate.
    assert (Hp : Math_min ((t - t) / (duration * 1000)) 1 == 0).
    { destruct (Math_min_cases ((t - t) / (duration * 1000)) 1)
        as [[H1 ->] | [H1 ->]].
      - field. lra.
      - exfalso. assert (H : (t - t) / (duration * 1000) == 0) by (field; lra).
        lra. }
    f_equal.
    + rewrite (Math_round_comp _ 0); [reflexivity |].
      unfold easeOutQuart. rewrite Hp. ring.
    + apply Qltb_lt. rewrite Hp. reflexivity. }
  split; [exact Hfirst |]. split.
  2: { intros s t Hs. rewrite <- (Hfirst t). unfold animate.
       apply Qeq_bool_iff in Hs. now rewrite Hs. }
  - intros s t Hs Hlate.
    assert (Hstart : (if Qeq_bool s 0 then t else s) = s).
    { destruct (Qeq_bool s 0) eqn:E; [| reflexivity].
      apply Qeq_bool_iff in E. contradiction. }
    assert (Hp : Math_min ((t - s) / (duration * 1000)) 1 == 1).
    { destruct (Math_min_cases ((t - s) / (duration * 1000)) 1)
        as [[H1 ->] | [H1 ->]]; [| reflexivity].
      assert (H : 1 <= (t - s) / (duration * 1000)).
      { apply Qle_shift_div_l; lra. }
      lra. }
    assert (Hshow : displayValue (animate value duration (Some s) t)
                    = Math_round value).
    { unfold animate. cbn [displayValue]. rewrite Hstart.
      apply Math_round_comp. unfold easeOutQuart. rewrite Hp. ring. }
    split; [exact Hshow |]. split.
    + unfold animate. cbn [requested]. rewrite Hstart.
      apply Qltb_ge. rewrite Hp. lra.
    + intros z ->. rewrite Hshow. apply Math_round_integer.
Qed.

Lemma animation_starts_at_0_and_ends_on_value_witness :
  displayValue (animate 87 (6 # 5) (Some 16%Q) 1216) = 87%Z.
Proof.
  refine (proj2 (proj2 (proj1 (proj2 (animation_starts_at_0_and_ends_on_value
            87 (6 # 5) _)) 16 1216 _ _)) 87%Z eq_refl).
  - reflexivity.
  - discriminate.
  - discriminate.
Defined.

(** X14.  For a value that is not negative the displayed number never goes
    down as time passes, and it stays between 0 and the rounded value. *)
Theorem animation_is_monotone (value duration s t1 t2 : Q) :
  0 < duration -> 0 <= value -> ~ s == 0 -> s <= t1 -> t1 <= t2 ->
  (0 <= displayValue (animate value duration (Some s) t1)
   <= displayValue (animate value duration (Some s) t2))%Z
  /\ (displayValue (animate value duration (Some s) t2) <= Math_round value)%Z.
Proof.
  intros Hd Hv Hs H1 H2.
  assert (Hstart : forall t, (if Qeq_bool s 0 then t else s) = s).
  { intros t. destruct (Qeq_bool s 0) eqn:E; [| reflexivity].
    apply Qeq_bool_iff in E. contradiction. }
  unfold animate. cbn [displayValue]. rewrite !Hstart.
  set (p1 := Math_min ((t1 - s) / (duration * 1000)) 1).
  set (p2 := Math_min ((t2 - s) / (duration * 1000)) 1).
  assert (Hp1 : 0 <= p1 <= 1) by (apply progress_bounds; lra).
  assert (Hp2 : 0 <= p2 <= 1) by (apply progress_bounds; lra).
  assert (Hp : p1 <= p2) by (apply progress_mono; lra).
  destruct (easeOutQuart_mono p1 p2) as [[He0 He] He1]; try lra.
  repeat split.
  - change 0%Z with (Math_round 0). apply Math_round_mono. nra.
  - apply Math_round_mono. nra.
  - apply Math_round_mono. nra.
Qed.

Lemma animation_is_monotone_witness :
  (0 <= displayValue (animate 87%Q 1%Q (Some 16%Q) 216%Q)
   <= displayValue (animate 87%Q 1%Q (Some 16%Q) 516%Q))%Z
  /\ (displayValue (animate 87%Q 1%Q (Some 16%Q) 516%Q) <= Math_round 87%Q)%Z.
Proof.
  apply animation_is_monotone; try reflexivity; discriminate.
Defined.
End AnimatedNumberFacts.

(** ** Rings, donuts, radar colour and badges *)

Section ChartFacts.
Import ResultsPage ResultsView.

Lemma radius_linear (index : nat) :
  ActivityRings.radius index == inject_Z (73 - 18 * Z.of_nat index).
Proof.
  unfold ActivityRings.radius, ActivityRings.center, ActivityRings.size,
    ActivityRings.strokeWidth, ActivityRings.gap.
  unfold Zminus. rewrite inject_Z_plus, inject_Z_opp, inject_Z_mult.
  change (inject_Z 73) with 73. change (inject_Z 18) with 18. field.
Qed.

(** X15.  The outermost ring touches the edge of the drawing; between the
    inner edge of a ring and the outer edge of the next one there is exactly
    the gap, so rings never overlap; the radius is positive for the first
    five rings only; and for a value between 0 and 100 the drawn arc is
    between nothing and the full circle. *)
Theorem rings_do_not_overlap (index : nat) :
  ActivityRings.radius 0 + ActivityRings.strokeWidth / 2 == ActivityRings.center
  /\ (ActivityRings.radius index - ActivityRings.strokeWidth / 2)
     - (ActivityRings.radius (S index) + ActivityRings.strokeWidth / 2)
     == ActivityRings.gap
  /\ (0 < ActivityRings.radius index <-> (index <= 4)%nat)
  /\ (forall PI value,
        0 < PI -> 0 <= value <= 100 -> (index <= 4)%nat ->
        0 <= ActivityRings.progress PI value index
          <= ActivityRings.circumference PI index).
Proof.
  split; [reflexivity |]. split; [| split].
  - rewrite !radius_linear. rewrite Nat2Z.inj_succ. unfold Z.succ.
    unfold Zminus.
    rewrite !inject_Z_plus, !inject_Z_opp, !inject_Z_mult, !inject_Z_plus.
    unfold ActivityRings.strokeWidth, ActivityRings.gap.
    change (inject_Z 73) with 73. change (inject_Z 18) with 18.
    change (inject_Z 1) with 1. field.
  - rewrite radius_linear. change 0 with (inject_Z 0). rewrite <- Zlt_Qlt. lia.
  - intros PI value HPI Hv Hi.
    assert (Hr : 0 < ActivityRings.radius index).
    { rewrite radius_linear. change 0 with (inject_Z 0).
      rewrite <- Zlt_Qlt. lia. }
    unfold ActivityRings.progress, ActivityRings.circumference.
    set (r := ActivityRings.radius index) in *.
    assert (Hc : 0 <= 2 * PI * r) by nra.
    assert (Hf : 0 <= value / 100 <= 1).
    { split; [apply Qle_shift_div_l; lra | apply Qle_shift_div_r; lra]. }
    set (f := value / 100) in *. split; nra.
Qed.

Lemma rings_do_not_overlap_witness :
  0 <= ActivityRings.progress (355 # 113) 64 2
    <= ActivityRings.circumference (355 # 113) 2.
Proof.
  apply (proj2 (proj2 (proj2 (rings_do_not_overlap 2)))).
  - reflexivity.
  - split; discriminate.
  - lia.
Defined.

(** X16.  The two slices of a donut always add up to 100 and neither is
    negative for a value between 0 and 100.  For a direct metric the colour
    and the label go together: green with "Высокий", yellow with "Средний",
    red with "Низкий". *)
Theorem donut_slices_and_label (v : Q) (inverse : bool) :
  (match MiniDonut.data v inverse with
   | [ (a, _); (b, grey) ] => a + b == 100 /\ grey = "#e5e7eb"
                              /\ (0 <= v <= 100 -> 0 <= a /\ 0 <= b)
   | _ => False
   end)
  /\ (getHexColor v false = "#10b981" <-> MiniDonut_getLabel v false = "Высокий")
  /\ (getHexColor v false = "#eab308" <-> MiniDonut_getLabel v false = "Средний")
  /\ (getHexColor v false = "#ef4444" <-> MiniDonut_getLabel v false = "Низкий").
Proof.
  split.
  - cbn. split; [ring |]. split; [reflexivity |]. intros [H0 H100]. split; lra.
  - unfold getHexColor, MiniDonut_getLabel.
    destruct (Qle_bool 75 v), (Qle_bool 50 v);
      repeat split; intros H; try reflexivity; discriminate H.
Qed.

Lemma donut_slices_and_label_witness :
  0 <= 35 /\ 0 <= 100 - 35.
Proof.
  apply (proj1 (donut_slices_and_label 35 true)). split; discriminate.
Defined.

(** X17.  When every gauge lies in [0,100], so does every point of the radar
    and so does their average, from which the radar takes its colour. *)
Theorem radar_average_in_range (G : Gauges) :
  (forall g, 0 <= gauge_value g G <= 100) ->
  Forall (fun p => 0 <= value p <= 100) (radarData G)
  /\ 0 <= avgRadarValue G <= 100.
Proof.
  intros H.
  pose proof (H g_readiness) as H1. pose proof (H g_energy_index) as H2.
  pose proof (H g_activity_score) as H3.
  pose proof (H g_recovery_quality) as H4.
  pose proof (H g_consistency) as H5.
  pose proof (H g_lifestyle_balance) as H6.
  pose proof (H g_cardio_risk) as H7. pose proof (H g_metabolic_load) as H8.
  cbn [gauge_value] in *.
  split.
  - unfold radarData. repeat constructor; cbn [value]; lra.
  - unfold avgRadarValue, radarData.
    cbn [fold_left value List.length Z.of_nat Pos.of_succ_nat Pos.succ].
    change (inject_Z 8) with 8.
    split; [apply Qle_shift_div_l | apply Qle_shift_div_r]; lra.
Qed.

Lemma radar_average_in_range_witness :
  0 <= avgRadarValue (gauges Sample.summary) <= 100.
Proof.
  apply (radar_average_in_range (gauges Sample.summary)).
  intros g. destruct g; split; discriminate.
Defined.

Lemma badge_numbers_from (i : nat) (l : list Recommendation.t) :
  map snd (Js.mapi_from recommendationBadge i l) = seq (S i) (List.length l).
Proof.
  revert i. induction l as [| x l IH]; intros i; [reflexivity |].
  cbn [Js.mapi_from map List.length seq recommendationBadge snd].
  rewrite IH. f_equal. lia.
Qed.

(** X18.  The recommendations are numbered 1, 2, 3, ... in the order of
    [all], and exactly the first three of them, or all of them when there are
    fewer, get the highlighted badge. *)
Theorem recommendations_are_numbered (R : Recommendations) :
  badge_numbers R = seq 1 (List.length (all R))
  /\ List.length (highlighted R) = Nat.min 3 (List.length (all R))
  /\ List.length (recommendationList R) = List.length (all R).
Proof.
  split; [apply badge_numbers_from |]. split.
  - rewrite highlighted_firstn. apply length_firstn.
  - rewrite <- (length_map snd). fold (badge_numbers R).
    replace (badge_numbers R) with (seq 1 (List.length (all R)))
      by (symmetry; apply badge_numbers_from).
    apply length_seq.
Qed.

Lemma with_severity_sorted (s : Severity) (l : list Alert.t) :
  with_severity s (stable_sort compareAlerts l) = with_severity s l.
Proof.
  unfold with_severity.
  rewrite 2!(filter_ext _ _ (fun a => Severity_eqb_order (Alert.severity a) s)).
  apply (stable_sort_keeps_groups (fun a => order (Alert.severity a))).
Qed.

(** X19.  Sorting the alerts loses and adds nothing, so the alert block is
    shown exactly when there is an alert; sorting a list that is already
    sorted changes nothing; and when there is a [high] alert the first card
    is the earliest generated [high] alert. *)
Theorem sortedAlerts_keeps_the_alerts (F : Flags) :
  List.length (sortedAlerts F) = List.length (alerts F)
  /\ (sortedAlerts F = [] <-> alerts F = [])
  /\ sortedAlerts (mkFlags (risk_flags F) (data_quality F) (sortedAlerts F))
     = sortedAlerts F
  /\ (forall h rest, with_severity high (alerts F) = h :: rest ->
        hd_error (sortedAlerts F) = Some h).
Proof.
  unfold sortedAlerts, Js.sort. cbn [alerts].
  assert (Hlen : List.length (stable_sort compareAlerts (alerts F))
                 = List.length (alerts F)).
  { symmetry. apply Permutation_length, stable_sort_perm. }
  split; [exact Hlen |]. split; [| split].
  - split; intros H.
    + apply length_zero_iff_nil. rewrite <- Hlen, H. reflexivity.
    + now rewrite H.
  - rewrite (sort_alerts_blocks (stable_sort _ _)), !with_severity_sorted.
    symmetry. apply sort_alerts_blocks.
  - intros h rest Hh. rewrite sort_alerts_blocks, Hh. reflexivity.
Qed.

Lemma sortedAlerts_keeps_the_alerts_witness :
  hd_error (sortedAlerts
              (Sample.sample_flags
                 (Questionnaire.apply_change
                    (Questionnaire.smokes_change true) Sample.answers)
                 (scores Sample.summary) (gauges Sample.summary)))
  = Some (Alert.mk "smoking" high "Smoking" "Cardio risk").
Proof.
  apply (proj2 (proj2 (proj2 (sortedAlerts_keeps_the_alerts
           (Sample.sample_flags
              (Questionnaire.apply_change
                 (Questionnaire.smokes_change true) Sample.answers)
              (scores Sample.summary) (gauges Sample.summary)))))
         _ []).
  reflexivity.
Defined.
End ChartFacts.

(** ** The age step *)

Section AgeStepGuard.
Import SurveyPage Questionnaire.

(** X20.  On the age step Next is enabled exactly when the age is between 18
    and 80, the test for an empty age adding nothing to the two bounds; it is
    therefore enabled whenever the age input has just been left, whatever was
    typed. *)
Theorem next_on_age_step (rt : Runtime) (st : State) :
  step st = 2%Z ->
  (enabled rt st next_click = true <-> 18 <= age (answers st) <= 80)
  /\ enabled rt (with_answers st (age_onBlur (answers st))) next_click = true.
Proof.
  intros Hs.
  assert (Hen : forall a, enabled rt (with_answers st a) next_click
                          = canProceed_age a).
  { intros a. cbn. unfold canProceed, TOTAL_STEPS. cbn. now rewrite Hs. }
  split.
  - replace st with (with_answers st (answers st)) at 1 by now destruct st.
    rewrite Hen. split; [apply canProceed_age_domain |].
    intros [H18 H80]. unfold canProceed_age.
    assert (E0 : Qeq_bool (age (answers st)) 0 = false).
    { destruct (Qeq_bool (age (answers st)) 0) eqn:E; [| reflexivity].
      apply Qeq_bool_iff in E. lra. }
    rewrite E0. apply Qle_bool_iff in H18, H80. now rewrite H18, H80.
  - rewrite Hen. apply age_onBlur_canProceed.
Qed.

Lemma next_on_age_step_witness :
  let st := run_events SampleRuntime.rt None (Sample.always Sample.response_200)
              [name_input "Anna"; next_click; age_input "7"] in
  (enabled SampleRuntime.rt st next_click = true <-> 18 <= age (answers st) <= 80)
  /\ enabled SampleRuntime.rt (with_answers st (age_onBlur (answers st)))
       next_click = true.
Proof.
  apply next_on_age_step. reflexivity.
Defined.
End AgeStepGuard.
